(** * gepa_prompt_optimize.py: data preparation, seed prompt and evaluator

    A shallow embedding of [src/gepa/gepa_prompt_optimize.py].

    Text is Python's [str] restricted to the code points below 256, one
    [ascii] per code point.  Dictionaries whose key order the program
    observes ([rows[0].keys()]) are association lists in insertion order.
    Exceptions are values of [exn] carried by the [result] monad.  The file
    system is a function from paths to file contents. *)

From Stdlib Require Import List Ascii String Bool Arith Lia NArith ZArith.
From Stdlib Require QArith.
Import ListNotations.

Local Open Scope list_scope.
Local Open Scope bool_scope.

(** ** Text *)

Definition str := list ascii.

Definition lit (x : string) : str := list_ascii_of_string x.

Definition LF : ascii := "010"%char.
Definition CR : ascii := "013"%char.
Definition TAB : ascii := "009"%char.
Definition DQ : ascii := "034"%char.
Definition SQ : ascii := "039"%char.
Definition BS : ascii := "092"%char.
Definition BQ : ascii := "096"%char.

Definition code (c : ascii) : N := N_of_ascii c.

Fixpoint eqs (a b : str) : bool :=
  match a, b with
  | [], [] => true
  | x :: a', y :: b' => Ascii.eqb x y && eqs a' b'
  | _, _ => false
  end.

Fixpoint mem_char (c : ascii) (cs : list ascii) : bool :=
  match cs with
  | [] => false
  | x :: cs' => Ascii.eqb c x || mem_char c cs'
  end.

Fixpoint mem_str (x : str) (xs : list str) : bool :=
  match xs with
  | [] => false
  | y :: xs' => eqs x y || mem_str x xs'
  end.

Definition is_empty {A} (l : list A) : bool :=
  match l with [] => true | _ :: _ => false end.

(** The builtin methods of [str] that the program calls. *)
Module Py.

Definition between (lo hi n : N) : bool := (lo <=? n)%N && (n <=? hi)%N.

(** [str.isspace] on one code point: TAB..CR, FS..US, SPACE, NEL, NBSP. *)
Definition isspace (c : ascii) : bool :=
  let n := code c in
  between 9 13 n || between 28 32 n || (n =? 133)%N || (n =? 160)%N.

(** The line boundaries of [str.splitlines]: LF, VT, FF, CR, FS, GS, RS,
    NEL (and CR LF as one boundary). *)
Definition is_linebreak (c : ascii) : bool :=
  let n := code c in
  between 10 13 n || between 28 30 n || (n =? 133)%N.

Fixpoint lstrip_by (drop : ascii -> bool) (s : str) : str :=
  match s with
  | [] => []
  | c :: s' => if drop c then lstrip_by drop s' else s
  end.

Definition rstrip_by (drop : ascii -> bool) (s : str) : str :=
  rev (lstrip_by drop (rev s)).

Definition strip_by (drop : ascii -> bool) (s : str) : str :=
  rstrip_by drop (lstrip_by drop s).

(** [s.strip()] *)
Definition strip (s : str) : str := strip_by isspace s.

(** [s.strip(chars)] *)
Definition strip_chars (chars : str) (s : str) : str :=
  strip_by (fun c => mem_char c chars) s.

Definition lower_char (c : ascii) : ascii :=
  let n := code c in
  if between 65 90 n || (between 192 222 n && negb (n =? 215)%N)
  then ascii_of_N (n + 32)
  else c.

(** [s.lower()] *)
Definition lower (s : str) : str := map lower_char s.

(** [s.splitlines()]: [after_cr] tells that the previous code point was a
    CR, whose boundary a following LF belongs to. *)
Fixpoint lines_from (after_cr : bool) (s : str) : list str :=
  match s with
  | [] => []
  | c :: s' =>
      if after_cr && Ascii.eqb c LF then lines_from false s'
      else if is_linebreak c then [] :: lines_from (Ascii.eqb c CR) s'
      else match lines_from false s' with
           | [] => [[c]]
           | l :: ls => (c :: l) :: ls
           end
  end.

Definition splitlines (s : str) : list str := lines_from false s.

(** [sep.join(parts)] *)
Fixpoint join (sep : str) (parts : list str) : str :=
  match parts with
  | [] => []
  | p :: ps =>
      match ps with
      | [] => p
      | _ :: _ => p ++ sep ++ join sep ps
      end
  end.

(** [s.split(sep)] for a separator of one code point. *)
Fixpoint split (sep : ascii) (s : str) : list str :=
  match s with
  | [] => [[]]
  | c :: s' =>
      if Ascii.eqb c sep then [] :: split sep s'
      else match split sep s' with
           | [] => [[c]]
           | p :: ps => (c :: p) :: ps
           end
  end.

Fixpoint prefixb (p s : str) : bool :=
  match p, s with
  | [], _ => true
  | _ :: _, [] => false
  | a :: p', c :: s' => Ascii.eqb a c && prefixb p' s'
  end.

(** [old in s] *)
Fixpoint contains (old s : str) : bool :=
  prefixb old s ||
  match s with
  | [] => false
  | _ :: s' => contains old s'
  end.

(** [s.endswith(suffix)] *)
Definition endswith (s suffix : str) : bool := prefixb (rev suffix) (rev s).

(** The left-to-right scan of [s.replace(old, new)] for a non-empty [old]:
    [skip] counts the code points of the occurrence just replaced that
    are still to be passed over. *)
Fixpoint replace_scan (old new : str) (skip : nat) (s : str) : str :=
  match s with
  | [] => []
  | c :: s' =>
      match skip with
      | S k => replace_scan old new k s'
      | O =>
          if prefixb old s
          then new ++ replace_scan old new (List.length old - 1) s'
          else c :: replace_scan old new 0 s'
      end
  end.

(** [s.replace(old, new)] *)
Definition replace (old new : str) (s : str) : str :=
  match old with
  | [] => new ++ flat_map (fun c => c :: new) s
  | _ :: _ => replace_scan old new 0 s
  end.

Definition hexdigit (n : N) : ascii :=
  nth (N.to_nat n) (lit "0123456789abcdef") "0"%char.

(** [str.isprintable] on one code point below 256. *)
Definition isprintable (c : ascii) : bool :=
  let n := code c in
  between 32 126 n || (between 161 255 n && negb (n =? 173)%N).

Definition repr_char (quote : ascii) (c : ascii) : str :=
  if Ascii.eqb c quote || Ascii.eqb c BS then [BS; c]
  else if Ascii.eqb c TAB then [BS; "t"%char]
  else if Ascii.eqb c LF then [BS; "n"%char]
  else if Ascii.eqb c CR then [BS; "r"%char]
  else if isprintable c then [c]
  else [BS; "x"%char; hexdigit (code c / 16); hexdigit (code c mod 16)].

(** [repr(s)] for a [str] *)
Definition repr (s : str) : str :=
  let quote := if mem_char SQ s && negb (mem_char DQ s) then DQ else SQ in
  quote :: flat_map (repr_char quote) s ++ [quote].

(** [repr(l)] for a list of [str] *)
Definition repr_list (l : list str) : str :=
  lit "[" ++ join (lit ", ") (map repr l) ++ lit "]".

End Py.

(** ** Regular expressions

    The part of Python's [re] that the two patterns of the program use:
    literals, backslash escapes, [.], [\s], bracketed sets, the repeats
    [*], [+], [*?] and [+?] of one-character atoms, and capturing groups.
    A pattern is parsed from its text, as [re] does, and matched by
    backtracking in [re]'s order of preference. *)
Module Re.

Inductive atom : Type :=
| Lit (c : ascii)
| Any
| AnyButLF
| Space
| OneOf (cs : list ascii)
| NoneOf (cs : list ascii).

Inductive quant : Type := Once | Star | Plus | LazyStar | LazyPlus.

Inductive item : Type :=
| Atom (a : atom) (q : quant)
| Open (n : nat)
| Close (n : nat).

Definition regex := list item.

(** The items that take text, as opposed to the group marks. *)
Definition is_atom (i : item) : bool :=
  match i with
  | Atom _ _ => true
  | Open _ | Close _ => false
  end.

Definition is_alnum (c : ascii) : bool :=
  let n := code c in
  Py.between 48 57 n || Py.between 65 90 n || Py.between 97 122 n.

(** The members of a bracketed set up to its closing bracket. *)
Fixpoint parse_set (acc : list ascii) (p : str) : option (list ascii * str) :=
  match p with
  | [] => None
  | c :: rest =>
      if Ascii.eqb c "]"%char then Some (rev acc, rest)
      else if Ascii.eqb c "-"%char then None
      else if Ascii.eqb c BS then
        match rest with
        | [] => None
        | e :: rest' => if is_alnum e then None else parse_set (e :: acc) rest'
        end
      else parse_set (c :: acc) rest
  end.

Definition parse_atom (dotall : bool) (p : str) : option (atom * str) :=
  match p with
  | [] => None
  | c :: rest =>
      if Ascii.eqb c BS then
        match rest with
        | [] => None
        | e :: rest' =>
            if Ascii.eqb e "s"%char then Some (Space, rest')
            else if is_alnum e then None
            else Some (Lit e, rest')
        end
      else if Ascii.eqb c "."%char then
        Some (if dotall then Any else AnyButLF, rest)
      else if Ascii.eqb c "["%char then
        match rest with
        | [] => None
        | e :: rest' =>
            if Ascii.eqb e "^"%char
            then option_map (fun x => (NoneOf (fst x), snd x)) (parse_set [] rest')
            else option_map (fun x => (OneOf (fst x), snd x)) (parse_set [] rest)
        end
      else if mem_char c (lit "*+?(){}|^$") then None
      else Some (Lit c, rest)
  end.

Definition parse_quant (p : str) : option (quant * str) :=
  match p with
  | [] => Some (Once, [])
  | c :: rest =>
      let reluctant_after :=
        match rest with
        | [] => None
        | e :: rest' => if Ascii.eqb e "?"%char then Some rest' else None
        end in
      if Ascii.eqb c "*"%char then
        match reluctant_after with
        | Some rest' => Some (LazyStar, rest')
        | None => Some (Star, rest)
        end
      else if Ascii.eqb c "+"%char then
        match reluctant_after with
        | Some rest' => Some (LazyPlus, rest')
        | None => Some (Plus, rest)
        end
      else if mem_char c (lit "?{") then None
      else Some (Once, p)
  end.

(** [next] is the number of the next group to open, [opened] the groups
    not yet closed, innermost first. *)
Fixpoint parse_from (fuel : nat) (dotall : bool) (next : nat)
    (opened : list nat) (p : str) : option regex :=
  match fuel with
  | O => None
  | S fuel' =>
      match p with
      | [] => if is_empty opened then Some [] else None
      | c :: rest =>
          if Ascii.eqb c "("%char then
            option_map (cons (Open next))
              (parse_from fuel' dotall (S next) (next :: opened) rest)
          else if Ascii.eqb c ")"%char then
            match opened with
            | [] => None
            | n :: opened' =>
                option_map (cons (Close n))
                  (parse_from fuel' dotall next opened' rest)
            end
          else
            match parse_atom dotall p with
            | None => None
            | Some (a, rest1) =>
                match parse_quant rest1 with
                | None => None
                | Some (q, rest2) =>
                    option_map (cons (Atom a q))
                      (parse_from fuel' dotall next opened rest2)
                end
            end
      end
  end.

(** [re.compile(pattern, flags)]; [None] is [re.error] or a pattern
    outside the modelled syntax. *)
Definition compile (dotall : bool) (pattern : str) : option regex :=
  parse_from (S (List.length pattern)) dotall 1 [] pattern.

Definition accepts (a : atom) (c : ascii) : bool :=
  match a with
  | Lit x => Ascii.eqb c x
  | Any => true
  | AnyButLF => negb (Ascii.eqb c LF)
  | Space => Py.isspace c
  | OneOf cs => mem_char c cs
  | NoneOf cs => negb (mem_char c cs)
  end.

Definition captures := list (nat * str).

Fixpoint lookup (n : nat) (cs : captures) : option str :=
  match cs with
  | [] => None
  | (m, t) :: cs' => if Nat.eqb n m then Some t else lookup n cs'
  end.

(** Longest run first, giving back one code point at a time. *)
Fixpoint greedy {X} (ok : ascii -> bool) (k : str -> option X) (s : str)
    : option X :=
  match s with
  | [] => k []
  | c :: s' =>
      if ok c then
        match greedy ok k s' with
        | Some x => Some x
        | None => k s
        end
      else k s
  end.

(** Shortest run first, taking one more code point at a time. *)
Fixpoint reluctant {X} (ok : ascii -> bool) (k : str -> option X) (s : str)
    : option X :=
  match k s with
  | Some x => Some x
  | None =>
      match s with
      | [] => None
      | c :: s' => if ok c then reluctant ok k s' else None
      end
  end.

Definition one {X} (ok : ascii -> bool) (k : str -> option X) (s : str)
    : option X :=
  match s with
  | [] => None
  | c :: s' => if ok c then k s' else None
  end.

(** A match of [r] at the start of [s]: the groups closed so far and the
    text left after the match.  [opened] remembers the text that was left
    when each group was opened. *)
Fixpoint match_here (r : regex) (opened closed : captures) (s : str)
    : option (captures * str) :=
  match r with
  | [] => Some (closed, s)
  | Open n :: r' => match_here r' ((n, s) :: opened) closed s
  | Close n :: r' =>
      match lookup n opened with
      | None => None
      | Some s0 =>
          match_here r' opened
            ((n, firstn (List.length s0 - List.length s) s0) :: closed) s
      end
  | Atom a q :: r' =>
      let k := match_here r' opened closed in
      match q with
      | Once => one (accepts a) k s
      | Star => greedy (accepts a) k s
      | Plus => one (accepts a) (greedy (accepts a) k) s
      | LazyStar => reluctant (accepts a) k s
      | LazyPlus => one (accepts a) (reluctant (accepts a) k) s
      end
  end.

(** [re.search]: the leftmost match. *)
Fixpoint search_from (r : regex) (s : str) : option captures :=
  match match_here r [] [] s with
  | Some (groups, _) => Some groups
  | None =>
      match s with
      | [] => None
      | _ :: s' => search_from r s'
      end
  end.

Definition search (dotall : bool) (pattern text : str)
    : option (option captures) :=
  option_map (fun r => search_from r text) (compile dotall pattern).

(** [m.group(n)]; [None] when the group took no part in the match. *)
Definition group (m : captures) (n : nat) : option str := lookup n m.

(** [re.findall] for a pattern with one group: the text of group 1 in
    every match, scanning on from the end of each match (from the next
    code point after an empty one). *)
Fixpoint findall_from (fuel : nat) (r : regex) (s : str) : list str :=
  match fuel with
  | O => []
  | S fuel' =>
      let onward :=
        match s with
        | [] => []
        | _ :: s' => findall_from fuel' r s'
        end in
      match match_here r [] [] s with
      | None => onward
      | Some (groups, rest) =>
          match lookup 1 groups with
          | None => []
          | Some t => [t]
          end ++
          (if List.length rest <? List.length s
           then findall_from fuel' r rest
           else onward)
      end
  end.

Definition findall (pattern text : str) : option (list str) :=
  option_map (fun r => findall_from (S (List.length text)) r text)
    (compile false pattern).

End Re.

(** ** Exceptions *)

(** A path, by the text that [str(path)] gives. *)
Definition Path := str.

Inductive exn : Type :=
| ValueError (msg : str)
| IndexError (msg : str)
| TypeError
| OSError (path : Path)
| ReError.

Inductive result (A : Type) : Type :=
| Ok (a : A)
| Raise (e : exn).

Arguments Ok {A} a.
Arguments Raise {A} e.

Definition bind {A B} (x : result A) (k : A -> result B) : result B :=
  match x with
  | Ok a => k a
  | Raise e => Raise e
  end.

Notation "x <- e ;; k" := (bind e (fun x => k))
  (at level 61, e at next level, right associativity).

(** ** The program *)

(** A CSV row, [dict[str, str]], in insertion order. *)
Definition Row := list (str * str).

Definition keys (row : Row) : list str := map fst row.

(** [row.get(k)] *)
Fixpoint get (row : Row) (k : str) : option str :=
  match row with
  | [] => None
  | (k', v) :: row' => if eqs k k' then Some v else get row' k
  end.

(** [Path.read_text] on a file system [fs]. *)
Definition read_text (fs : Path -> option str) (path : Path) : result str :=
  match fs path with
  | Some text => Ok text
  | None => Raise (OSError path)
  end.

(** The fields of the argument namespace that [build_seed_prompt] reads. *)
Record Namespace : Type := {
  service_file : str;
  seed_prompt_file : str;
  business_type : str;
  aggressiveness_level : str
}.

(** The dictionaries that [to_dataset] builds; [additional_context] is
    always the empty dictionary. *)
Record Example : Type := {
  input : str;
  additional_context : list (str * str);
  answer : str
}.

Record EvaluationResult : Type := {
  score : QArith_base.Q;
  feedback : str;
  objective_scores : option (list (str * QArith_base.Q))
}.

Definition pick_feature_columns (rows : list Row) (label_column : str)
    (feature_columns : str) : result (list str) :=
  match rows with
  | [] => Raise (ValueError (lit "CSV is empty"))
  | row0 :: _ =>
      let headers := keys row0 in
      if negb (mem_str label_column headers) then
        Raise (ValueError (lit "label column '" ++ label_column ++
                           lit "' not in CSV headers: " ++
                           Py.repr_list headers))
      else if negb (is_empty (Py.strip feature_columns)) then
        let cols :=
          map Py.strip
            (filter (fun c => negb (is_empty (Py.strip c)))
               (Py.split ","%char feature_columns)) in
        let missing := filter (fun c => negb (mem_str c headers)) cols in
        if negb (is_empty missing) then
          Raise (ValueError (lit "missing feature columns: " ++
                             Py.repr_list missing))
        else Ok cols
      else
        Ok (filter (fun h => negb (eqs h label_column)) headers)
  end.

(** The pattern of line 73, as the raw string literal spells it. *)
Definition prompt_block_pattern : str :=
  lit "const\\s+prompt\\s*=\\s*\\[(.*?)\\]\\.join\\(" ++ [BS; DQ] ++
  lit "\\\\n" ++ [BS; DQ] ++ lit "\\);".

(** The pattern of line 78. *)
Definition part_pattern : str := lit "`([^`]+)`".

(** Lines 83 and 84. *)
Definition rewrite_placeholders (prompt : str) : str :=
  let prompt :=
    Py.replace (lit "${businessType}") (lit "{business_type}") prompt in
  Py.replace (lit "${aggressivenessLevel}") (lit "{aggressiveness_level}")
    prompt.

(** Lines 73 to 85, the function after the file has been read, for a
    given spelling of the pattern of line 73. *)
Definition extract_prompt_with (pattern : str) (path : Path) (text : str)
    : result str :=
  match Re.search true pattern text with
  | None => Raise ReError
  | Some None =>
      Raise (ValueError (lit "Could not find prompt block in " ++ path))
  | Some (Some m) =>
      match Re.group m 1 with
      | None => Raise TypeError
      | Some block =>
          match Re.findall part_pattern block with
          | None => Raise ReError
          | Some parts =>
              if is_empty parts then
                Raise (ValueError
                         (lit "No template literal parts found in prompt block"))
              else Ok (rewrite_placeholders (Py.join [LF] parts))
          end
      end
  end.

Definition extract_prompt (path : Path) (text : str) : result str :=
  extract_prompt_with prompt_block_pattern path text.

Definition extract_prompt_from_service (fs : Path -> option str)
    (path : Path) : result str :=
  text <- read_text fs path ;;
  extract_prompt path text.

Definition seed_suffix : str :=
  [LF; LF] ++ lit "Return only the label string. No explanation.".

(** Lines 89 to 92 *)
Definition load_template (fs : Path -> option str) (args : Namespace)
    : result str :=
  if negb (is_empty (seed_prompt_file args))
  then read_text fs (seed_prompt_file args)
  else extract_prompt_from_service fs (service_file args).

Definition build_seed_prompt (fs : Path -> option str) (args : Namespace)
    : result (list (str * str)) :=
  text <- load_template fs args ;;
  let text := Py.replace (lit "{business_type}") (business_type args) text in
  let text :=
    Py.replace (lit "{aggressiveness_level}") (aggressiveness_level args)
      text in
  let text := text ++ seed_suffix in
  Ok [(lit "system_prompt", text)].

(** Line 103: [(row.get(label_column) or "").strip()] *)
Definition answer_of (label_column : str) (row : Row) : str :=
  Py.strip (match get row label_column with
            | Some v => if is_empty v then [] else v
            | None => []
            end).

(** Line 106: [row.get(k, '')] finds a default only for an absent key. *)
Definition input_text_of (feature_cols : list str) (row : Row) : str :=
  Py.join [LF]
    (map (fun k =>
            k ++ lit ": " ++
            Py.strip (match get row k with Some v => v | None => [] end))
       feature_cols).

(** The body of the loop of lines 102 to 111, on the list built so far. *)
Definition to_dataset_step (label_column : str) (feature_cols : list str)
    (dataset : list Example) (row : Row) : list Example :=
  let answer := answer_of label_column row in
  if is_empty answer then dataset
  else
    dataset ++ [ {| input := input_text_of feature_cols row;
                    additional_context := [];
                    answer := answer |} ].

Definition to_dataset (rows : list Row) (label_column : str)
    (feature_cols : list str) : result (list Example) :=
  let dataset :=
    fold_left (to_dataset_step label_column feature_cols) rows [] in
  if is_empty dataset then
    Raise (ValueError (lit "No usable rows with non-empty labels"))
  else Ok dataset.

(** Line 118 *)
Definition expected_of (data : Example) : str :=
  Py.lower (Py.strip (answer data)).

(** Line 119 *)
Definition predicted_of (response : str) : result str :=
  match Py.splitlines (Py.strip response) with
  | [] => Raise (IndexError (lit "list index out of range"))
  | line :: _ =>
      Ok (Py.lower
            (Py.strip_chars [SQ] (Py.strip_chars [DQ] (Py.strip line))))
  end.

Definition exact_label_evaluator (data : Example) (response : str)
    : result EvaluationResult :=
  let expected := expected_of data in
  predicted <- predicted_of response ;;
  let ok := eqs predicted expected in
  let feedback :=
    if ok then
      lit "Correct. Expected='" ++ answer data ++ lit "', Predicted='" ++
      Py.strip response ++ lit "'"
    else
      lit "Incorrect. Expected='" ++ answer data ++ lit "', Predicted='" ++
      Py.strip response ++ lit "'. Return only the label." in
  Ok {| score := if ok then QArith_base.Qmake 1 1 else QArith_base.Qmake 0 1;
        feedback := feedback;
        objective_scores := None |}.

(** ** Notions in which the properties are stated *)

(** The text before the first line boundary. *)
Fixpoint first_line (s : str) : str :=
  match s with
  | [] => []
  | c :: s' => if Py.is_linebreak c then [] else c :: first_line s'
  end.

(** [core] is [s] without its longest prefix and its longest suffix of code
    points that [drop] accepts. *)
Definition trimmed (drop : ascii -> bool) (s core : str) : Prop :=
  exists l r,
    s = l ++ core ++ r /\
    forallb drop l = true /\ forallb drop r = true /\
    match core with [] => True | c :: _ => drop c = false end /\
    match rev core with [] => True | c :: _ => drop c = false end.

Definition is_dquote (c : ascii) : bool := Ascii.eqb c DQ.
Definition is_squote (c : ascii) : bool := Ascii.eqb c SQ.

(** One layer of quotes: an opening quote and the same quote closing. *)
Definition strip_one_layer (s : str) : str :=
  match s with
  | [] => s
  | q :: s' =>
      if is_dquote q || is_squote q then
        match rev s' with
        | [] => s
        | q' :: inner => if Ascii.eqb q' q then rev inner else s
        end
      else s
  end.

(** The normalization of the predicted value in the words of section 4.5
    of the specification: first line of the response, trimmed, one layer of
    quotes removed, lower-cased. *)
Definition worded_predicted (response : str) : str :=
  Py.lower (strip_one_layer (Py.strip (first_line response))).

(** A row has a usable label: the label cell is there and is not empty
    after trimming. *)
Definition has_label (label_column : str) (row : Row) : bool :=
  match get row label_column with
  | None => false
  | Some v => negb (is_empty (Py.strip v))
  end.

(** The example that a row with a usable label gives. *)
Definition example_of (label_column : str) (feature_cols : list str)
    (row : Row) : Example :=
  {| input := input_text_of feature_cols row;
     additional_context := [];
     answer := answer_of label_column row |}.

(** [removed x l l']: [l'] is [l] without [x], the order kept. *)
Inductive removed (x : str) : list str -> list str -> Prop :=
| removed_nil : removed x [] []
| removed_drop l l' : removed x l l' -> removed x (x :: l) l'
| removed_keep h l l' : h <> x -> removed x l l' -> removed x (h :: l) (h :: l').

(** The input text of an example, line by line. *)
Definition built_from (feature_cols : list str) (row : Row) (text : str)
    : Prop :=
  exists lines,
    text = Py.join [LF] lines /\
    Forall2 (fun k line =>
               match get row k with
               | Some v => line = k ++ lit ": " ++ Py.strip v
               | None => line = k ++ lit ": "
               end) feature_cols lines.

(** The non-empty suffixes of a text. *)
Fixpoint tails (s : str) : list str :=
  match s with
  | [] => []
  | _ :: s' => s :: tails s'
  end.

(** Neither text is a prefix of the other. *)
Definition clash (a b : str) : bool :=
  negb (Py.prefixb a b) && negb (Py.prefixb b a).

(** No occurrence of [p] can begin or end inside a copy of [new]. *)
Definition apart (p new : str) : bool :=
  forallb (fun q => clash q new) (tails p) &&
  forallb (fun n => clash n p) (tails new).

Definition tok_business_type : str := lit "{business_type}".
Definition tok_aggressiveness_level : str := lit "{aggressiveness_level}".
Definition js_business_type : str := lit "${businessType}".
Definition js_aggressiveness_level : str := lit "${aggressivenessLevel}".

(** The pattern of line 73 with each backslash written once, which is how
    a raw string literal spells a regular-expression escape. *)
Definition single_escaped_pattern : str :=
  lit "const\s+prompt\s*=\s*\[(.*?)\]\.join\(" ++ [BS; DQ] ++
  lit "\\n" ++ [BS; DQ] ++ lit "\);".

(** A service file with a prompt block of two parts. *)
Definition service_text : str :=
  lit "export function f() { const prompt = [`You serve a ${businessType}.`, `Be ${aggressivenessLevel}.`].join(" ++
  [DQ; BS; "n"%char; DQ] ++ lit "); return prompt; }".

Definition service_path : Path := lit "apps/api/src/services/llmService.ts".

Definition seed_path : Path := lit "seed_prompt.txt".

(** A file system that holds one file. *)
Definition one_file (path : Path) (text : str) : Path -> option str :=
  fun p => if eqs p path then Some text else None.

Definition service_args : Namespace :=
  {| service_file := service_path; seed_prompt_file := [];
     business_type := lit "bakery"; aggressiveness_level := lit "high" |}.

Definition seed_args : Namespace :=
  {| service_file := service_path; seed_prompt_file := seed_path;
     business_type := lit "bakery"; aggressiveness_level := lit "high" |}.

Definition seed_template : str :=
  lit "You advise a {business_type}. Be {aggressiveness_level}.".

Definition seed_template_js : str :=
  lit "You advise a {business_type}. Be {aggressiveness_level}. Not ${businessType}.".

Definition spam_example : Example :=
  {| input := lit "text: win a prize"; additional_context := [];
     answer := lit "Spam" |}.

Definition quoted_twice : str := [DQ; DQ] ++ lit "spam" ++ [DQ; DQ].

Definition blank_response : str := [" "%char; TAB; LF; " "%char].

Definition xy_rows : list Row :=
  [ [(lit "x", lit "1"); (lit "y", lit "2")] ].

Definition category_rows : list Row :=
  [ [(lit "text", lit " first "); (lit "category", lit "A")];
    [(lit "text", lit "second"); (lit "category", lit "  ")];
    [(lit "text", lit "third"); (lit "category", lit " B ")] ].


(** ** The caller *)

(** What [main] hands to [gepa.optimize] from the data it prepared. *)
Record OptimizeInputs : Type := {
  seed_candidate : list (str * str);
  trainset : list Example;
  valset : list Example
}.

(** Lines 134 to 139 of [main], on the rows that the two calls of
    [read_csv] returned: the feature columns are picked from the training
    rows, both datasets are built with them, then the seed prompt. *)
Definition main_prepare (fs : Path -> option str) (args : Namespace)
    (label_column feature_columns : str) (train_rows val_rows : list Row)
    : result OptimizeInputs :=
  feature_cols <-
    pick_feature_columns train_rows label_column feature_columns ;;
  trainset <- to_dataset train_rows label_column feature_cols ;;
  valset <- to_dataset val_rows label_column feature_cols ;;
  seed_prompt <- build_seed_prompt fs args ;;
  Ok {| seed_candidate := seed_prompt;
        trainset := trainset;
        valset := valset |}.

(** ** Further notions *)

(** The score of a call of the evaluator, when it returns. *)
Definition score_of (r : result EvaluationResult) : option QArith_base.Q :=
  match r with
  | Ok res => Some (score res)
  | Raise _ => None
  end.

Definition is_quote (c : ascii) : bool := is_dquote c || is_squote c.

(** A label on one line that neither begins nor ends with a quote. *)
Definition plain_label (a : str) : bool :=
  forallb (fun c => negb (Py.is_linebreak c)) a &&
  match a with [] => false | c :: _ => negb (is_quote c) end &&
  match rev a with [] => false | c :: _ => negb (is_quote c) end.

(** A column name as a request can spell it: not empty, no comma, no
    whitespace at either end. *)
Definition requestable (c : str) : bool :=
  negb (is_empty c) && eqs (Py.strip c) c &&
  forallb (fun x => negb (Ascii.eqb x ","%char)) c.

(** The defaults of [--business-type] and [--aggressiveness-level]. *)
Definition default_seed_args : Namespace :=
  {| service_file := service_path; seed_prompt_file := seed_path;
     business_type := lit "small business";
     aggressiveness_level := lit "moderate" |}.

Definition multiline_example : Example :=
  {| input := lit "text: hello"; additional_context := [];
     answer := lit "not" ++ [LF] ++ lit "spam" |}.


(** * Properties *)

(** ** Texts, prefixes and occurrences *)

Lemma eqs_eq (a b : str) : eqs a b = true <-> a = b.
Proof.
  revert b; induction a as [|x a IH]; intros [|y b]; simpl; split;
    try congruence; try discriminate.
  - intros H. apply andb_true_iff in H as [Hx Hab].
    apply Ascii.eqb_eq in Hx. apply IH in Hab. congruence.
  - intros H. injection H as -> ->.
    rewrite Ascii.eqb_refl. simpl. now apply IH.
Qed.

Lemma eqs_refl (a : str) : eqs a a = true.
Proof. now apply eqs_eq. Qed.

Lemma eqs_neq (a b : str) : eqs a b = false <-> a <> b.
Proof.
  split.
  - intros H E. apply eqs_eq in E. congruence.
  - intros H. destruct (eqs a b) eqn:E; [|reflexivity].
    apply eqs_eq in E. contradiction.
Qed.

Lemma mem_str_In (x : str) (xs : list str) : mem_str x xs = true <-> In x xs.
Proof.
  induction xs as [|y xs IH]; simpl.
  - split; [discriminate | tauto].
  - rewrite orb_true_iff, IH, eqs_eq. split; intros [H|H]; auto.
Qed.

Lemma mem_str_not_In (x : str) (xs : list str) :
  mem_str x xs = false <-> ~ In x xs.
Proof.
  rewrite <- mem_str_In. destruct (mem_str x xs); split; intros; congruence.
Qed.

Lemma prefixb_app (p s : str) : Py.prefixb p (p ++ s) = true.
Proof.
  induction p as [|a p IH]; simpl; [reflexivity|].
  now rewrite Ascii.eqb_refl.
Qed.

Lemma prefixb_inv (p s : str) :
  Py.prefixb p s = true -> exists rest, s = p ++ rest.
Proof.
  revert s; induction p as [|a p IH]; intros s H.
  - now exists s.
  - destruct s as [|c s]; simpl in H; [discriminate|].
    apply andb_true_iff in H as [Hc Hp]. apply Ascii.eqb_eq in Hc.
    destruct (IH _ Hp) as [rest ->]. exists rest. now subst.
Qed.

Lemma prefixb_nil_r (p : str) : Py.prefixb p [] = is_empty p.
Proof. now destruct p. Qed.

(** Two prefixes of one text: one is a prefix of the other. *)
Lemma prefixes_compat (a b s : str) :
  Py.prefixb a s = true -> Py.prefixb b s = true ->
  Py.prefixb a b = true \/ Py.prefixb b a = true.
Proof.
  revert b s; induction a as [|x a IH]; intros b s Ha Hb.
  - now left.
  - destruct b as [|y b]; [now right|].
    destruct s as [|c s]; simpl in Ha, Hb; [discriminate|].
    apply andb_true_iff in Ha as [Hx Ha].
    apply andb_true_iff in Hb as [Hy Hb].
    apply Ascii.eqb_eq in Hx, Hy. subst. simpl.
    rewrite Ascii.eqb_refl. simpl. eauto.
Qed.

Lemma prefixb_app_compat (p a x : str) :
  Py.prefixb p (a ++ x) = true ->
  Py.prefixb p a = true \/ Py.prefixb a p = true.
Proof.
  intros H. apply (prefixes_compat p a (a ++ x) H (prefixb_app a x)).
Qed.

Lemma clash_prefix_l (p a x : str) :
  clash a p = true -> Py.prefixb p (a ++ x) = false.
Proof.
  intros Hc. destruct (Py.prefixb p (a ++ x)) eqn:E; [|reflexivity].
  unfold clash in Hc. apply andb_true_iff in Hc as [H1 H2].
  apply negb_true_iff in H1, H2.
  destruct (prefixb_app_compat _ _ _ E); congruence.
Qed.

Lemma contains_cons (p : str) (c : ascii) (s : str) :
  Py.contains p (c :: s) = Py.prefixb p (c :: s) || Py.contains p s.
Proof. reflexivity. Qed.

Lemma contains_prefix (p s : str) :
  Py.prefixb p s = true -> Py.contains p s = true.
Proof. intros H. destruct s; simpl in *; rewrite H; reflexivity. Qed.

Lemma contains_app_r (p a x : str) :
  Py.contains p x = true -> Py.contains p (a ++ x) = true.
Proof.
  intros H. induction a as [|c a IH]; [exact H|].
  simpl app. rewrite contains_cons, IH. apply orb_true_r.
Qed.

Lemma prefixb_app_l (p x b : str) :
  Py.prefixb p x = true -> Py.prefixb p (x ++ b) = true.
Proof.
  intros H. destruct (prefixb_inv _ _ H) as [rest ->].
  rewrite <- app_assoc. apply prefixb_app.
Qed.

Lemma contains_app_l (p x b : str) :
  Py.contains p x = true -> Py.contains p (x ++ b) = true.
Proof.
  induction x as [|c x IH]; intros H.
  - simpl in H. rewrite orb_false_r in H.
    apply contains_prefix. now apply (prefixb_app_l p [] b).
  - rewrite contains_cons in H. simpl app. rewrite contains_cons.
    apply orb_true_iff in H as [H|H].
    + apply orb_true_iff. left. exact (prefixb_app_l p (c :: x) b H).
    + rewrite (IH H). apply orb_true_r.
Qed.

Lemma contains_mid (p a b : str) : Py.contains p (a ++ p ++ b) = true.
Proof. apply contains_app_r, contains_prefix, prefixb_app. Qed.

Lemma contains_nonempty (p s : str) :
  Py.contains p s = false -> p <> [].
Proof. intros H ->. destruct s; discriminate. Qed.

Lemma tails_self (p : str) : p <> [] -> In p (tails p).
Proof. destruct p; [congruence|]. intros _. now left. Qed.

Lemma tails_tl (c : ascii) (p q : str) : In q (tails p) -> In q (tails (c :: p)).
Proof. intros H. now right. Qed.

(** [p] does not reach into the text that follows [x]. *)
Lemma prefixb_app_reflect (p x tl : str) :
  (forall q, In q (tails p) -> clash q tl = true) ->
  Py.prefixb p (x ++ tl) = true -> Py.prefixb p x = true.
Proof.
  revert x; induction p as [|a p IH]; intros x Hq H; [reflexivity|].
  destruct x as [|c x].
  - simpl app in H. specialize (Hq (a :: p) (or_introl eq_refl)).
    unfold clash in Hq. rewrite H in Hq. discriminate.
  - simpl in H |- *. apply andb_true_iff in H as [Hc Hp].
    rewrite Hc. simpl. apply IH; [|exact Hp].
    intros q Hin. apply Hq. now right.
Qed.

Lemma contains_app_tail (p x tl : str) :
  (forall q, In q (tails p) -> clash q tl = true) ->
  Py.contains p x = false -> Py.contains p tl = false ->
  Py.contains p (x ++ tl) = false.
Proof.
  intros Hq Hx Ht. induction x as [|c x IH]; [exact Ht|].
  rewrite contains_cons in Hx. apply orb_false_iff in Hx as [Hp Hx].
  simpl app. rewrite contains_cons, (IH Hx), orb_false_r.
  destruct (Py.prefixb p (c :: x ++ tl)) eqn:E; [|reflexivity].
  apply (prefixb_app_reflect p (c :: x) tl Hq) in E. congruence.
Qed.

(** No occurrence of [p] begins inside a leading copy of [new]. *)
Lemma contains_app_head (p new x : str) :
  (forall n, In n (tails new) -> clash n p = true) ->
  Py.contains p x = false -> Py.contains p (new ++ x) = false.
Proof.
  intros Hn Hx. induction new as [|c new IH]; [exact Hx|].
  simpl app. rewrite contains_cons, IH, orb_false_r.
  - apply (clash_prefix_l p (c :: new) x). apply Hn. now left.
  - intros n Hin. apply Hn. now right.
Qed.

Lemma endswith_app (x suffix : str) : Py.endswith (x ++ suffix) suffix = true.
Proof. unfold Py.endswith. rewrite rev_app_distr. apply prefixb_app. Qed.

Lemma clash_sym (a b : str) : clash a b = clash b a.
Proof. unfold clash. apply andb_comm. Qed.

Lemma apart_tails (p new : str) :
  apart p new = true ->
  (forall q, In q (tails p) -> clash q new = true) /\
  (forall n, In n (tails new) -> clash n p = true).
Proof.
  unfold apart. intros H. apply andb_true_iff in H as [H1 H2].
  split; intros x Hx.
  - exact (proj1 (forallb_forall _ _) H1 x Hx).
  - exact (proj1 (forallb_forall _ _) H2 x Hx).
Qed.

(** ** [str.replace] *)

Section Replace.

Variables old new : str.
Hypothesis old_nonempty : old <> [].

Lemma replace_is_scan (s : str) :
  Py.replace old new s = Py.replace_scan old new 0 s.
Proof. unfold Py.replace. destruct old; [congruence|reflexivity]. Qed.

Lemma replace_scan_skip (k : nat) (s : str) :
  Py.replace_scan old new k s = Py.replace_scan old new 0 (skipn k s).
Proof.
  revert k; induction s as [|c s IH]; intros [|k]; try reflexivity.
  simpl. apply IH.
Qed.

Lemma replace_scan_hit (rest : str) :
  Py.replace_scan old new 0 (old ++ rest) =
  new ++ Py.replace_scan old new 0 rest.
Proof.
  assert (exists o old', old = o :: old') as (o & old' & E)
    by (destruct old; [congruence|eauto]).
  assert (Hs : old ++ rest = o :: (old' ++ rest)) by (now rewrite E).
  pose proof (prefixb_app old rest) as Hp. rewrite Hs in *.
  cbn [Py.replace_scan]. rewrite Hp, replace_scan_skip.
  replace (List.length old - 1) with (List.length old')
    by (rewrite E; simpl; lia).
  now rewrite skipn_app, skipn_all, Nat.sub_diag.
Qed.

Lemma replace_scan_miss (c : ascii) (s : str) :
  Py.prefixb old (c :: s) = false ->
  Py.replace_scan old new 0 (c :: s) = c :: Py.replace_scan old new 0 s.
Proof. intros H. cbn [Py.replace_scan]. now rewrite H. Qed.

(** Induction along the scan: the text is empty, or begins with [old], or
    begins with a code point that the scan copies. *)
Lemma replace_scan_ind (P : str -> Prop) :
  P [] ->
  (forall rest, P rest -> P (old ++ rest)) ->
  (forall c s, Py.prefixb old (c :: s) = false -> P s -> P (c :: s)) ->
  forall s, P s.
Proof.
  intros Hnil Hhit Hmiss s.
  remember (List.length s) as n eqn:Hn. revert s Hn.
  induction n as [n IH] using lt_wf_ind. intros s Hn.
  destruct s as [|c s]; [exact Hnil|].
  destruct (Py.prefixb old (c :: s)) eqn:E.
  - destruct (prefixb_inv _ _ E) as [rest Hrest]. rewrite Hrest.
    apply Hhit. apply (IH (List.length rest)); [|reflexivity].
    subst n. rewrite Hrest, length_app.
    destruct old; [congruence|]. simpl. lia.
  - apply Hmiss; [exact E|]. apply (IH (List.length s)); [|reflexivity].
    subst n. simpl. lia.
Qed.

Lemma contains_old_app (rest : str) : Py.contains old (old ++ rest) = true.
Proof. apply contains_prefix, prefixb_app. Qed.

(** A text without [old] is left as it is. *)
Lemma replace_fixed (s : str) :
  Py.contains old s = false -> Py.replace_scan old new 0 s = s.
Proof.
  induction s as [|rest IH|c s Hmiss IH] using replace_scan_ind; intros H.
  - reflexivity.
  - rewrite contains_old_app in H. discriminate.
  - rewrite replace_scan_miss by exact Hmiss.
    rewrite contains_cons in H. apply orb_false_iff in H as [_ H].
    now rewrite IH.
Qed.

(** Each replaced occurrence leaves a copy of [new]. *)
Lemma replace_puts_new (s : str) :
  Py.contains old s = true ->
  Py.contains new (Py.replace_scan old new 0 s) = true.
Proof.
  induction s as [|rest IH|c s Hmiss IH] using replace_scan_ind; intros H.
  - destruct old; [congruence|discriminate].
  - rewrite replace_scan_hit. apply contains_prefix, prefixb_app.
  - rewrite replace_scan_miss by exact Hmiss.
    rewrite contains_cons, Hmiss in H. simpl in H.
    rewrite contains_cons, (IH H). apply orb_true_r.
Qed.

(** An occurrence of [p] at the start of the result was already at the
    start of the text. *)
Lemma replace_prefix_reflect (p : str) :
  (forall q, In q (tails p) -> clash q new = true) ->
  forall s, Py.prefixb p (Py.replace_scan old new 0 s) = true ->
            Py.prefixb p s = true.
Proof.
  induction p as [|a p IH]; intros Hq s H; [reflexivity|].
  destruct (Py.prefixb old s) eqn:E.
  - destruct (prefixb_inv _ _ E) as [rest ->].
    rewrite replace_scan_hit in H.
    rewrite (clash_prefix_l (a :: p) new) in H; [discriminate|].
    rewrite clash_sym. apply Hq. now left.
  - destruct s as [|c s]; [discriminate H|].
    rewrite replace_scan_miss in H by exact E.
    simpl in H |- *. apply andb_true_iff in H as [Hc Hp].
    rewrite Hc. simpl. apply IH; [|exact Hp].
    intros q Hin. apply Hq. now right.
Qed.

(** The result has no occurrence of [p], when [p] is [old] itself or was
    not in the text, and cannot overlap a copy of [new]. *)
Lemma replace_no_new (p : str) :
  p <> [] -> apart p new = true ->
  forall s, p = old \/ Py.contains p s = false ->
            Py.contains p (Py.replace_scan old new 0 s) = false.
Proof.
  intros Hp Hap. destruct (apart_tails _ _ Hap) as [Hq Hn].
  induction s as [|rest IH|c s Hmiss IH] using replace_scan_ind; intros H.
  - destruct p; [congruence|reflexivity].
  - rewrite replace_scan_hit. apply contains_app_head; [exact Hn|].
    apply IH. destruct H as [H|H]; [now left|right].
    destruct (Py.contains p rest) eqn:E; [|reflexivity].
    now rewrite (contains_app_r p old rest E) in H.
  - rewrite replace_scan_miss by exact Hmiss.
    rewrite contains_cons. apply orb_false_iff. split.
    + destruct (Py.prefixb p (c :: Py.replace_scan old new 0 s)) eqn:E;
        [|reflexivity].
      rewrite <- (replace_scan_miss c s Hmiss) in E.
      apply (replace_prefix_reflect p Hq) in E.
      destruct H as [H|H].
      * subst p. congruence.
      * rewrite contains_cons, E in H. discriminate.
    + apply IH. destruct H as [H|H]; [now left|right].
      rewrite contains_cons in H. now apply orb_false_iff in H as [_ H].
Qed.

(** An occurrence of [q] at the start of the text is still at the start
    of the result. *)
Lemma replace_prefix_keep (q : str) :
  (forall q', In q' (tails q) -> clash q' old = true) ->
  forall s, Py.prefixb q s = true ->
            Py.prefixb q (Py.replace_scan old new 0 s) = true.
Proof.
  induction q as [|a q IH]; intros Hq s H; [reflexivity|].
  destruct s as [|c s]; [discriminate H|].
  destruct (Py.prefixb old (c :: s)) eqn:E.
  - specialize (Hq (a :: q) (or_introl eq_refl)). unfold clash in Hq.
    destruct (prefixes_compat _ _ _ H E) as [X|X]; rewrite X in Hq;
      simpl in Hq; try discriminate.
    rewrite andb_false_r in Hq. discriminate.
  - rewrite replace_scan_miss by exact E.
    simpl in H |- *. apply andb_true_iff in H as [Hc Hp].
    rewrite Hc. simpl. apply IH; [|exact Hp].
    intros q' Hin. apply Hq. now right.
Qed.

(** An occurrence of [q] that no occurrence of [old] can overlap is still
    in the result. *)
Lemma replace_keeps (q : str) :
  apart q old = true ->
  forall s, Py.contains q s = true ->
            Py.contains q (Py.replace_scan old new 0 s) = true.
Proof.
  intros Hap. destruct (apart_tails _ _ Hap) as [Hq Ho].
  induction s as [|rest IH|c s Hmiss IH] using replace_scan_ind; intros H.
  - simpl in H. rewrite orb_false_r in H.
    destruct q; [reflexivity|discriminate].
  - rewrite replace_scan_hit. apply contains_app_r, IH.
    destruct (Py.contains q rest) eqn:E; [reflexivity|].
    now rewrite (contains_app_head q old rest Ho E) in H.
  - rewrite contains_cons in H. apply orb_true_iff in H as [H|H].
    + apply contains_prefix. now apply replace_prefix_keep.
    + rewrite replace_scan_miss by exact Hmiss.
      rewrite contains_cons, (IH H). apply orb_true_r.
Qed.

End Replace.

(** The same facts for [Py.replace]. *)

Lemma replace_absent (old new p s : str) :
  old <> [] -> p <> [] -> apart p new = true ->
  p = old \/ Py.contains p s = false ->
  Py.contains p (Py.replace old new s) = false.
Proof.
  intros Ho Hp Hap H. rewrite replace_is_scan by exact Ho.
  now apply replace_no_new.
Qed.

Lemma replace_present (old new q s : str) :
  old <> [] -> apart q old = true ->
  Py.contains q s = true -> Py.contains q (Py.replace old new s) = true.
Proof.
  intros Ho Hap H. rewrite replace_is_scan by exact Ho.
  now apply replace_keeps.
Qed.

Lemma replace_inserts (old new s : str) :
  old <> [] -> Py.contains old s = true ->
  Py.contains new (Py.replace old new s) = true.
Proof.
  intros Ho H. rewrite replace_is_scan by exact Ho.
  now apply replace_puts_new.
Qed.

Lemma replace_unchanged (old new s : str) :
  old <> [] -> Py.contains old s = false -> Py.replace old new s = s.
Proof.
  intros Ho H. rewrite replace_is_scan by exact Ho.
  now apply replace_fixed.
Qed.

(** Whether [q] occurs is the same before and after, when [q] can overlap
    neither [old] nor [new]. *)
Lemma replace_contains_same (old new q s : str) :
  old <> [] -> q <> [] -> apart q old = true -> apart q new = true ->
  Py.contains q (Py.replace old new s) = Py.contains q s.
Proof.
  intros Ho Hq Hqo Hqn. destruct (Py.contains q s) eqn:E.
  - now apply replace_present.
  - apply replace_absent; auto.
Qed.

Ltac nonempty :=
  let X := fresh "X" in intro X; vm_compute in X; discriminate X.

Ltac evaluated := vm_compute; reflexivity.

(** ** The placeholders *)

(** C8. Rewriting the placeholders [${businessType}] and
    [${aggressivenessLevel}] a second time changes nothing: on every text,
    lines 83 and 84 applied twice give what they give applied once. *)
Theorem rewrite_placeholders_idempotent (text : str) :
  rewrite_placeholders (rewrite_placeholders text) = rewrite_placeholders text.
Proof.
  unfold rewrite_placeholders.
  set (A := lit "${businessType}").
  set (a := lit "{business_type}").
  set (B := lit "${aggressivenessLevel}").
  set (b := lit "{aggressiveness_level}").
  set (u := Py.replace A a text).
  set (v := Py.replace B b u).
  assert (HA : A <> []) by nonempty.
  assert (HB : B <> []) by nonempty.
  assert (H1 : Py.contains A u = false).
  { apply replace_absent; auto; evaluated. }
  assert (H2 : Py.contains A v = false).
  { apply replace_absent; auto; evaluated. }
  assert (H3 : Py.contains B v = false).
  { apply replace_absent; auto; evaluated. }
  rewrite (replace_unchanged A a v HA H2).
  apply (replace_unchanged B b v HB H3).
Qed.

(** The rewritten text holds neither of the two rewritten placeholders. *)
Lemma rewrite_placeholders_clean (text : str) :
  Py.contains js_business_type (rewrite_placeholders text) = false /\
  Py.contains js_aggressiveness_level (rewrite_placeholders text) = false.
Proof.
  unfold rewrite_placeholders, js_business_type, js_aggressiveness_level.
  split.
  - apply replace_absent; [nonempty|nonempty|evaluated|right].
    apply replace_absent; [nonempty|nonempty|evaluated|now left].
  - apply replace_absent; [nonempty|nonempty|evaluated|now left].
Qed.

(** The text of the seed prompt: lines 94 to 96 on a template, with the
    values of the round trip. *)
Lemma resolved_text (template : str) :
  Py.contains tok_business_type template = true ->
  Py.contains tok_aggressiveness_level template = true ->
  let final :=
    Py.replace (lit "{aggressiveness_level}") (lit "high")
      (Py.replace (lit "{business_type}") (lit "bakery") template) ++
    seed_suffix in
  Py.contains tok_business_type final = false /\
  Py.contains tok_aggressiveness_level final = false /\
  Py.contains js_business_type final =
    Py.contains js_business_type template /\
  Py.contains js_aggressiveness_level final =
    Py.contains js_aggressiveness_level template /\
  Py.contains (lit "bakery") final = true /\
  Py.contains (lit "high") final = true /\
  Py.endswith final seed_suffix = true.
Proof.
  intros Hbt Hag final. subst final.
  unfold tok_business_type, tok_aggressiveness_level, js_business_type,
    js_aggressiveness_level in *.
  set (BT := lit "{business_type}") in *.
  set (AG := lit "{aggressiveness_level}") in *.
  set (u := Py.replace BT (lit "bakery") template).
  set (v := Py.replace AG (lit "high") u).
  assert (HBT : BT <> []) by nonempty.
  assert (HAG : AG <> []) by nonempty.
  assert (tail_free : forall p,
             forallb (fun q => clash q seed_suffix) (tails p) = true ->
             Py.contains p seed_suffix = false ->
             Py.contains p (v ++ seed_suffix) = Py.contains p v).
  { intros p Hc Hs. destruct (Py.contains p v) eqn:E.
    - now apply contains_app_l.
    - apply contains_app_tail; auto.
      intros q Hq. exact (proj1 (forallb_forall _ _) Hc q Hq). }
  repeat split.
  - rewrite tail_free by evaluated.
    apply replace_absent; [exact HAG|exact HBT|evaluated|right].
    apply replace_absent; [exact HBT|exact HBT|evaluated|now left].
  - rewrite tail_free by evaluated.
    apply replace_absent; [exact HAG|exact HAG|evaluated|now left].
  - rewrite tail_free by evaluated. unfold v, u.
    rewrite !replace_contains_same;
      solve [reflexivity | nonempty | evaluated | assumption].
  - rewrite tail_free by evaluated. unfold v, u.
    rewrite !replace_contains_same;
      solve [reflexivity | nonempty | evaluated | assumption].
  - rewrite tail_free by evaluated.
    apply replace_present; [exact HAG|evaluated|].
    apply replace_inserts; assumption.
  - rewrite tail_free by evaluated.
    apply replace_inserts; [exact HAG|].
    apply replace_present; [exact HBT|evaluated|assumption].
  - apply endswith_app.
Qed.

(** ** The seed prompt *)

(** C7, as amended.  A seed prompt built from a template that holds both
    [{business_type}] and [{aggressiveness_level}], with the values bakery
    and high, holds neither of these two tokens; it holds [${businessType}]
    exactly when the template does, and likewise [${aggressivenessLevel}];
    it holds bakery and high, and it ends with the fixed suffix. *)
Theorem build_seed_prompt_resolved (fs : Path -> option str)
    (args : Namespace) (template : str) :
  load_template fs args = Ok template ->
  business_type args = lit "bakery" ->
  aggressiveness_level args = lit "high" ->
  Py.contains tok_business_type template = true ->
  Py.contains tok_aggressiveness_level template = true ->
  exists final,
    build_seed_prompt fs args = Ok [(lit "system_prompt", final)] /\
    Py.contains tok_business_type final = false /\
    Py.contains tok_aggressiveness_level final = false /\
    Py.contains js_business_type final =
      Py.contains js_business_type template /\
    Py.contains js_aggressiveness_level final =
      Py.contains js_aggressiveness_level template /\
    Py.contains (lit "bakery") final = true /\
    Py.contains (lit "high") final = true /\
    Py.endswith final seed_suffix = true.
Proof.
  intros Hload Hb Ha Hbt Hag.
  unfold build_seed_prompt. rewrite Hload. cbn [bind]. rewrite Hb, Ha.
  eexists. split; [reflexivity|].
  exact (resolved_text template Hbt Hag).
Qed.

Lemma build_seed_prompt_resolved_witness :
  exists final,
    build_seed_prompt (one_file seed_path seed_template) seed_args =
      Ok [(lit "system_prompt", final)] /\
    Py.contains tok_business_type final = false /\
    Py.contains tok_aggressiveness_level final = false /\
    Py.contains js_business_type final =
      Py.contains js_business_type seed_template /\
    Py.contains js_aggressiveness_level final =
      Py.contains js_aggressiveness_level seed_template /\
    Py.contains (lit "bakery") final = true /\
    Py.contains (lit "high") final = true /\
    Py.endswith final seed_suffix = true.
Proof.
  apply (build_seed_prompt_resolved (one_file seed_path seed_template)
           seed_args seed_template); reflexivity.
Defined.

(** C7, as stated, fails on a seed-prompt file that holds
    [${businessType}]: the file is used as it is, and the token stays. *)
Lemma build_seed_prompt_keeps_js_token :
  Py.contains tok_business_type seed_template_js = true /\
  Py.contains tok_aggressiveness_level seed_template_js = true /\
  exists final,
    build_seed_prompt (one_file seed_path seed_template_js) seed_args =
      Ok [(lit "system_prompt", final)] /\
    Py.contains js_business_type final = true.
Proof.
  split; [evaluated|]. split; [evaluated|].
  eexists. split; [vm_compute; reflexivity | evaluated].
Qed.

(** ** The pattern of the prompt block *)

Section Matching.

Context {X : Type}.
Variable ok : ascii -> bool.
Variable k : str -> option X.

Lemma one_inv (s : str) (x : X) :
  Re.one ok k s = Some x -> exists s', k s' = Some x.
Proof.
  destruct s as [|c s]; simpl; [discriminate|].
  destruct (ok c); [eauto | discriminate].
Qed.

Lemma greedy_inv (s : str) (x : X) :
  Re.greedy ok k s = Some x -> exists s', k s' = Some x.
Proof.
  induction s as [|c s IH]; simpl; [eauto|].
  destruct (ok c); [|eauto].
  destruct (Re.greedy ok k s) as [y|]; [|eauto].
  intros H. injection H as ->. now apply IH.
Qed.

Lemma reluctant_inv (s : str) (x : X) :
  Re.reluctant ok k s = Some x -> exists s', k s' = Some x.
Proof.
  induction s as [|c s IH]; simpl.
  - destruct (k []) eqn:E; [|discriminate]. intros H. injection H as ->. eauto.
  - destruct (k (c :: s)) eqn:E.
    + intros H. injection H as ->. eauto.
    + destruct (ok c); [exact IH | discriminate].
Qed.

End Matching.

(** A match of a pattern that begins with atoms holds a match of the rest
    of the pattern, with the same groups. *)
Lemma match_atoms_inv (pre rest : Re.regex) (opened closed : Re.captures)
    (s : str) (res : Re.captures * str) :
  forallb Re.is_atom pre = true ->
  Re.match_here (pre ++ rest) opened closed s = Some res ->
  exists s', Re.match_here rest opened closed s' = Some res.
Proof.
  revert s; induction pre as [|i pre IH]; intros s Hpre H; [eauto|].
  simpl in Hpre. apply andb_true_iff in Hpre as [Hi Hpre].
  destruct i as [a q| |]; try discriminate.
  simpl app in H. cbn [Re.match_here] in H.
  assert (exists s1, Re.match_here (pre ++ rest) opened closed s1 = Some res)
    as [s1 H1].
  { destruct q.
    - now apply one_inv in H.
    - now apply greedy_inv in H.
    - apply one_inv in H as [s1 H]. now apply greedy_inv in H.
    - now apply reluctant_inv in H.
    - apply one_inv in H as [s1 H]. now apply reluctant_inv in H. }
  exact (IH s1 Hpre H1).
Qed.

(** A run of literal atoms takes exactly its text. *)
Lemma match_literals_inv (w : str) (rest : Re.regex)
    (opened closed : Re.captures) (s : str) (res : Re.captures * str) :
  Re.match_here (map (fun c => Re.Atom (Re.Lit c) Re.Once) w ++ rest)
    opened closed s = Some res ->
  exists s', s = w ++ s' /\ Re.match_here rest opened closed s' = Some res.
Proof.
  revert s; induction w as [|c w IH]; intros s H; [now exists s|].
  simpl map in H. simpl app in H. cbn [Re.match_here] in H.
  destruct s as [|d s]; simpl in H; [discriminate|].
  destruct (Ascii.eqb d c) eqn:E; [|discriminate].
  apply Ascii.eqb_eq in E. subst d.
  destruct (IH s H) as (s' & -> & H'). exists s'. now split.
Qed.

(** A group of literal atoms captures its own text. *)
Lemma match_literal_group (w : str) (last : ascii) (s : str)
    (res : Re.captures * str) :
  Re.match_here
    (Re.Open 1 :: map (fun c => Re.Atom (Re.Lit c) Re.Once) w ++
     [Re.Close 1; Re.Atom (Re.Lit last) Re.Once]) [] [] s = Some res ->
  fst res = [(1, w)].
Proof.
  cbn [Re.match_here]. intros H.
  apply match_literals_inv in H as (s' & -> & H).
  cbn [Re.match_here Re.lookup Nat.eqb] in H.
  apply one_inv in H as (s2 & H). cbn [Re.match_here] in H.
  injection H as <-. simpl.
  rewrite length_app, Nat.add_sub.
  now rewrite firstn_app, firstn_all, Nat.sub_diag, firstn_O, app_nil_r.
Qed.

Lemma search_from_inv (r : Re.regex) (s : str) (m : Re.captures) :
  Re.search_from r s = Some m ->
  exists u rest, Re.match_here r [] [] u = Some (m, rest).
Proof.
  induction s as [|c s IH]; simpl.
  - destruct (Re.match_here r [] [] []) as [[g rest]|] eqn:E; [|discriminate].
    intros H. injection H as ->. eauto.
  - destruct (Re.match_here r [] [] (c :: s)) as [[g rest]|] eqn:E; [|exact IH].
    intros H. injection H as ->. eauto.
Qed.

(** What line 73 compiles to: atoms, then a group around the six literal
    code points double quote, backslash, backslash, n, double quote,
    backslash, then a semicolon. *)
Lemma prompt_block_pattern_shape :
  exists pre,
    forallb Re.is_atom pre = true /\
    Re.compile true prompt_block_pattern =
      Some (pre ++
            Re.Open 1 ::
            map (fun c => Re.Atom (Re.Lit c) Re.Once)
              [DQ; BS; BS; "n"%char; DQ; BS] ++
            [Re.Close 1; Re.Atom (Re.Lit ";"%char) Re.Once]).
Proof.
  exists (match Re.compile true prompt_block_pattern with
          | Some r => firstn 27 r
          | None => []
          end).
  split; evaluated.
Qed.

(** The pattern of line 73 asks for a backslash after [const]: no text makes
    [extract_prompt] return a prompt. *)
Lemma extract_prompt_never_returns (path : Path) (text : str) :
  extract_prompt path text =
    Raise (ValueError (lit "Could not find prompt block in " ++ path)) \/
  extract_prompt path text =
    Raise (ValueError (lit "No template literal parts found in prompt block")).
Proof.
  unfold extract_prompt, extract_prompt_with, Re.search.
  destruct prompt_block_pattern_shape as (pre & Hpre & ->).
  cbn [option_map].
  destruct (Re.search_from _ text) as [m|] eqn:Hs; [right | now left].
  apply search_from_inv in Hs as (u & rest & Hm).
  apply match_atoms_inv in Hm as (s' & Hm); [|exact Hpre].
  apply match_literal_group in Hm. simpl in Hm. subst m.
  reflexivity.
Qed.

(** C1.  On a service file that holds a prompt block of two parts,
    [extract_prompt_from_service] finds no block and raises, where the
    claim has it return the two parts joined by a newline. *)
Theorem extract_prompt_from_service_misses_block :
  extract_prompt_from_service (one_file service_path service_text)
    service_path =
  Raise (ValueError (lit "Could not find prompt block in " ++ service_path)).
Proof. evaluated. Qed.

(** With each backslash of the pattern written once, the same steps return
    the two parts joined by a newline, the placeholders rewritten. *)
Lemma single_escaped_pattern_extracts :
  extract_prompt_with single_escaped_pattern service_path service_text =
  Ok (lit "You serve a {business_type}." ++ [LF] ++
      lit "Be {aggressiveness_level}.").
Proof. evaluated. Qed.

(** ** Trimming and lines *)

Lemma lstrip_by_blank (drop : ascii -> bool) (s : str) :
  forallb drop s = true -> Py.lstrip_by drop s = [].
Proof.
  induction s as [|c s IH]; simpl; [reflexivity|].
  intros H. apply andb_true_iff in H as [Hc Hs]. now rewrite Hc, IH.
Qed.

Lemma strip_by_blank (drop : ascii -> bool) (s : str) :
  forallb drop s = true -> Py.strip_by drop s = [].
Proof.
  intros H. unfold Py.strip_by, Py.rstrip_by.
  now rewrite (lstrip_by_blank drop s H).
Qed.

(** What [lstrip_by] removes, and where it stops. *)
Lemma lstrip_by_split (drop : ascii -> bool) (s : str) :
  exists l,
    s = l ++ Py.lstrip_by drop s /\ forallb drop l = true /\
    match Py.lstrip_by drop s with [] => True | c :: _ => drop c = false end.
Proof.
  induction s as [|c s (l & Hs & Hl & Hh)]; simpl.
  - now exists [].
  - destruct (drop c) eqn:E.
    + exists (c :: l). simpl. rewrite E, Hl. repeat split; [congruence|exact Hh].
    + exists []. now repeat split.
Qed.

Lemma forallb_rev {A} (f : A -> bool) (l : list A) :
  forallb f (rev l) = forallb f l.
Proof.
  induction l as [|x l IH]; [reflexivity|].
  simpl. rewrite forallb_app, IH. simpl. rewrite andb_true_r. apply andb_comm.
Qed.

(** [strip_by] removes the longest prefix and the longest suffix of code
    points that [drop] accepts. *)
Lemma strip_by_trimmed (drop : ascii -> bool) (s : str) :
  trimmed drop s (Py.strip_by drop s).
Proof.
  unfold trimmed, Py.strip_by, Py.rstrip_by.
  destruct (lstrip_by_split drop s) as (l & Hs & Hl & Hh).
  set (t := Py.lstrip_by drop s) in *.
  destruct (lstrip_by_split drop (rev t)) as (r & Ht & Hr & Hu).
  set (u := Py.lstrip_by drop (rev t)) in *.
  assert (Ht' : t = rev u ++ rev r).
  { rewrite <- rev_app_distr, <- Ht. symmetry. apply rev_involutive. }
  exists l, (rev r). repeat split.
  - now rewrite <- Ht'.
  - exact Hl.
  - now rewrite forallb_rev.
  - destruct (rev u) as [|c core] eqn:E; [exact I|].
    rewrite Ht' in Hh. exact Hh.
  - now rewrite rev_involutive.
Qed.

Lemma lstrip_by_app_blank (drop : ascii -> bool) (l s : str) :
  forallb drop l = true -> Py.lstrip_by drop (l ++ s) = Py.lstrip_by drop s.
Proof.
  induction l as [|c l IH]; simpl; [reflexivity|].
  intros H. apply andb_true_iff in H as [Hc Hl]. now rewrite Hc, IH.
Qed.

Lemma lstrip_by_stop (drop : ascii -> bool) (s : str) :
  match s with [] => True | c :: _ => drop c = false end ->
  Py.lstrip_by drop s = s.
Proof. destruct s as [|c s]; simpl; [reflexivity|]. now intros ->. Qed.

(** [trimmed] determines the core: it is what [strip_by] returns. *)
Lemma trimmed_unique (drop : ascii -> bool) (s core : str) :
  trimmed drop s core -> core = Py.strip_by drop s.
Proof.
  intros (l & r & -> & Hl & Hr & Hhead & Hlast).
  unfold Py.strip_by, Py.rstrip_by.
  rewrite (lstrip_by_app_blank drop l _ Hl).
  destruct core as [|c core'].
  - simpl app. rewrite (lstrip_by_blank drop r Hr). reflexivity.
  - rewrite (lstrip_by_stop drop ((c :: core') ++ r)) by exact Hhead.
    rewrite rev_app_distr, lstrip_by_app_blank by now rewrite forallb_rev.
    rewrite lstrip_by_stop by exact Hlast.
    now rewrite rev_involutive.
Qed.

Lemma lstrip_by_ext (f g : ascii -> bool) (s : str) :
  (forall c, f c = g c) -> Py.lstrip_by f s = Py.lstrip_by g s.
Proof.
  intros H. induction s as [|c s IH]; simpl; [reflexivity|].
  now rewrite H, IH.
Qed.

Lemma strip_by_ext (f g : ascii -> bool) (s : str) :
  (forall c, f c = g c) -> Py.strip_by f s = Py.strip_by g s.
Proof.
  intros H. unfold Py.strip_by, Py.rstrip_by.
  now rewrite (lstrip_by_ext f g s H), (lstrip_by_ext f g _ H).
Qed.

Lemma strip_chars_dquote (s : str) :
  Py.strip_chars [DQ] s = Py.strip_by is_dquote s.
Proof.
  apply strip_by_ext. intros c. simpl. apply orb_false_r.
Qed.

Lemma strip_chars_squote (s : str) :
  Py.strip_chars [SQ] s = Py.strip_by is_squote s.
Proof.
  apply strip_by_ext. intros c. simpl. apply orb_false_r.
Qed.

(** The first element of [splitlines] is the text before the first line
    boundary. *)
Lemma splitlines_first (s : str) :
  s <> [] -> exists ls, Py.splitlines s = first_line s :: ls.
Proof.
  unfold Py.splitlines.
  induction s as [|c s IH]; intros Hs; [congruence|].
  cbn [Py.lines_from first_line andb].
  destruct (Py.is_linebreak c); [eauto|].
  destruct s as [|d s].
  - now exists [].
  - destruct IH as [ls IH]; [discriminate|]. rewrite IH. eauto.
Qed.

(** ** The evaluator *)

(** Line 119 on a response that is not blank. *)
Lemma predicted_of_value (response : str) :
  Py.strip response <> [] ->
  predicted_of response =
  Ok (Py.lower
        (Py.strip_chars [SQ]
           (Py.strip_chars [DQ]
              (Py.strip (first_line (Py.strip response)))))).
Proof.
  intros H. unfold predicted_of.
  destruct (splitlines_first _ H) as [ls ->]. reflexivity.
Qed.

(** C2, as amended.  For a response that is not blank, the predicted value
    is the response trimmed, cut at its first line boundary, trimmed again,
    with every leading and trailing double quote removed, then every leading
    and trailing single quote, and lower-cased. *)
Theorem predicted_of_normalization (response : str) :
  Py.strip response <> [] ->
  exists t a b c,
    trimmed Py.isspace response t /\
    trimmed Py.isspace (first_line t) a /\
    trimmed is_dquote a b /\
    trimmed is_squote b c /\
    predicted_of response = Ok (Py.lower c).
Proof.
  intros H.
  exists (Py.strip response),
         (Py.strip (first_line (Py.strip response))),
         (Py.strip_chars [DQ] (Py.strip (first_line (Py.strip response)))),
         (Py.strip_chars [SQ]
            (Py.strip_chars [DQ] (Py.strip (first_line (Py.strip response))))).
  repeat split.
  - apply strip_by_trimmed.
  - apply strip_by_trimmed.
  - rewrite strip_chars_dquote. apply strip_by_trimmed.
  - rewrite strip_chars_squote. apply strip_by_trimmed.
  - now apply predicted_of_value.
Qed.

Lemma predicted_of_normalization_witness :
  exists t a b c,
    trimmed Py.isspace quoted_twice t /\
    trimmed Py.isspace (first_line t) a /\
    trimmed is_dquote a b /\
    trimmed is_squote b c /\
    predicted_of quoted_twice = Ok (Py.lower c).
Proof.
  apply (predicted_of_normalization quoted_twice).
  intro X. vm_compute in X. discriminate X.
Defined.

(** C2, as stated, fails on a response in two layers of double quotes:
    line 119 reduces it to the bare label, where one layer removed would
    leave it quoted. *)
Lemma predicted_of_strips_every_layer :
  predicted_of quoted_twice = Ok (lit "spam") /\
  worded_predicted quoted_twice = [DQ] ++ lit "spam" ++ [DQ] /\
  predicted_of quoted_twice <> Ok (worded_predicted quoted_twice).
Proof.
  split; [evaluated|]. split; [evaluated|].
  intro X. vm_compute in X. discriminate X.
Qed.

(** A blank response has no first line. *)
Lemma predicted_of_blank (response : str) :
  forallb Py.isspace response = true ->
  predicted_of response = Raise (IndexError (lit "list index out of range")).
Proof.
  intros H. unfold predicted_of, Py.strip.
  now rewrite (strip_by_blank _ _ H).
Qed.

(** C10.  On a response that is empty or all whitespace, the evaluator
    raises the IndexError of [splitlines()[0]] and returns no result,
    whatever the example. *)
Theorem exact_label_evaluator_blank (data : Example) (response : str) :
  forallb Py.isspace response = true ->
  exact_label_evaluator data response =
  Raise (IndexError (lit "list index out of range")).
Proof.
  intros H. unfold exact_label_evaluator.
  now rewrite (predicted_of_blank response H).
Qed.

Lemma exact_label_evaluator_blank_witness :
  exact_label_evaluator spam_example blank_response =
  Raise (IndexError (lit "list index out of range")).
Proof.
  apply (exact_label_evaluator_blank spam_example blank_response).
  reflexivity.
Defined.

(** C3.  On the empty response the evaluator raises and gives no score,
    where the claim has it return the score 0.0. *)
Theorem exact_label_evaluator_empty_response :
  exact_label_evaluator spam_example [] =
  Raise (IndexError (lit "list index out of range")).
Proof. reflexivity. Qed.

(** On a response that is not blank the evaluator returns, and the score is
    1 when the predicted value is the expected one and 0 when it is not. *)
Lemma exact_label_evaluator_score (data : Example) (response : str) :
  Py.strip response <> [] ->
  exists predicted res,
    predicted_of response = Ok predicted /\
    exact_label_evaluator data response = Ok res /\
    objective_scores res = None /\
    (predicted = expected_of data -> score res = QArith_base.Qmake 1 1) /\
    (predicted <> expected_of data -> score res = QArith_base.Qmake 0 1).
Proof.
  intros H. unfold exact_label_evaluator.
  rewrite (predicted_of_value response H). cbn [bind].
  eexists. eexists. split; [reflexivity|]. split; [reflexivity|].
  cbn [score objective_scores]. split; [reflexivity|]. split; intros E.
  - apply eqs_eq in E. now rewrite E.
  - apply eqs_neq in E. now rewrite E.
Qed.

(** The four responses of the specification against the label Spam. *)
Lemma exact_label_evaluator_spam :
  option_map score
    (match exact_label_evaluator spam_example ([DQ] ++ lit "Spam" ++ [DQ])
     with Ok r => Some r | Raise _ => None end) =
    Some (QArith_base.Qmake 1 1) /\
  option_map score
    (match exact_label_evaluator spam_example ([SQ] ++ lit "spam" ++ [SQ])
     with Ok r => Some r | Raise _ => None end) =
    Some (QArith_base.Qmake 1 1) /\
  option_map score
    (match exact_label_evaluator spam_example
             (lit "spam" ++ [LF] ++ lit "extra text")
     with Ok r => Some r | Raise _ => None end) =
    Some (QArith_base.Qmake 1 1) /\
  option_map score
    (match exact_label_evaluator spam_example (lit "SPAM!")
     with Ok r => Some r | Raise _ => None end) =
    Some (QArith_base.Qmake 0 1).
Proof. repeat split; evaluated. Qed.

(** ** The feature columns *)

Lemma filter_removed (x : str) (l : list str) :
  removed x l (filter (fun h => negb (eqs h x)) l).
Proof.
  induction l as [|h l IH]; simpl; [constructor|].
  destruct (eqs h x) eqn:E; simpl.
  - apply eqs_eq in E. subst h. now constructor.
  - apply eqs_neq in E. now constructor.
Qed.

(** [removed] determines its result. *)
Lemma removed_unique (x : str) (l l' : list str) :
  removed x l l' -> l' = filter (fun h => negb (eqs h x)) l.
Proof.
  induction 1 as [|l l' _ IH|k l l' Hk _ IH]; simpl.
  - reflexivity.
  - now rewrite eqs_refl.
  - apply eqs_neq in Hk. rewrite Hk. simpl. now f_equal.
Qed.

(** [removed] keeps exactly the other elements. *)
Lemma removed_In (x : str) (l l' : list str) :
  removed x l l' -> forall h, In h l' <-> In h l /\ h <> x.
Proof.
  induction 1 as [|l l' _ IH|k l l' Hk _ IH]; intros h; simpl.
  - tauto.
  - rewrite IH. split; [tauto|]. intros [[E|Hin] Hn]; [congruence|tauto].
  - rewrite IH. split; [|tauto].
    intros [E|[Hin Hn]]; [subst; tauto | tauto].
Qed.

(** In a list without repetition, [removed] takes out the one place of
    [x]. *)
Lemma removed_split (x : str) (l1 l2 l' : list str) :
  ~ In x l1 -> ~ In x l2 -> removed x (l1 ++ x :: l2) l' -> l' = l1 ++ l2.
Proof.
  revert l'; induction l1 as [|h l1 IH]; intros l' H1 H2 H; simpl in *.
  - inversion H as [|l0 l0' Hr|k l0 l0' Hk Hr]; subst; [|congruence].
    clear H. revert l' Hr. induction l2 as [|h l2 IH2]; intros l' Hr.
    + now inversion Hr.
    + inversion Hr as [|l0 l0' Hr'|k l0 l0' Hk Hr']; subst.
      * simpl in H2. tauto.
      * f_equal. apply IH2; [|exact Hr']. simpl in H2. tauto.
  - inversion H as [|l0 l0' Hr|k l0 l0' Hk Hr]; subst; [tauto|].
    f_equal. apply IH; tauto.
Qed.

(** C4.  On rows whose first row has the label column among its headers,
    and with no requested columns, [pick_feature_columns] returns the
    headers without the label column, in the order of the headers. *)
Theorem pick_feature_columns_default (row0 : Row) (rest : list Row)
    (label_column requested : str) :
  In label_column (keys row0) ->
  Py.strip requested = [] ->
  exists cols,
    pick_feature_columns (row0 :: rest) label_column requested = Ok cols /\
    removed label_column (keys row0) cols.
Proof.
  intros Hin Hreq. unfold pick_feature_columns.
  apply mem_str_In in Hin. rewrite Hin, Hreq. cbn [negb is_empty].
  eexists. split; [reflexivity|]. apply filter_removed.
Qed.

Lemma pick_feature_columns_default_witness :
  exists cols,
    pick_feature_columns category_rows (lit "category") [" "%char] = Ok cols /\
    removed (lit "category") (keys (hd [] category_rows)) cols.
Proof.
  apply (pick_feature_columns_default (hd [] category_rows)
           (tl category_rows) (lit "category") [" "%char]).
  - vm_compute. right. left. reflexivity.
  - reflexivity.
Defined.

Lemma join_contains (sep p : str) (parts : list str) :
  In p parts -> Py.contains p (Py.join sep parts) = true.
Proof.
  induction parts as [|q parts IH]; intros Hin; [destruct Hin|].
  cbn [Py.join]. destruct parts as [|q' parts].
  - destruct Hin as [->|[]]. apply contains_prefix.
    rewrite <- (app_nil_r p) at 2. apply prefixb_app.
  - destruct Hin as [->|Hin].
    + apply contains_prefix, prefixb_app.
    + apply contains_app_r, contains_app_r, IH, Hin.
Qed.

Lemma repr_list_contains (h : str) (l : list str) :
  In h l -> Py.contains (Py.repr h) (Py.repr_list l) = true.
Proof.
  intros Hin. unfold Py.repr_list.
  apply contains_app_r, contains_app_l, join_contains, in_map, Hin.
Qed.

(** C6.  On rows whose first row lacks the label column among its headers,
    [pick_feature_columns] raises the ValueError whose message holds the
    name of the label column and the list of all the headers. *)
Theorem pick_feature_columns_missing_label (row0 : Row) (rest : list Row)
    (label_column requested : str) :
  ~ In label_column (keys row0) ->
  exists msg,
    pick_feature_columns (row0 :: rest) label_column requested =
      Raise (ValueError msg) /\
    msg = lit "label column '" ++ label_column ++
          lit "' not in CSV headers: " ++ Py.repr_list (keys row0) /\
    Py.contains label_column msg = true /\
    forallb (fun h => Py.contains (Py.repr h) msg) (keys row0) = true.
Proof.
  intros Hnot. unfold pick_feature_columns.
  apply mem_str_not_In in Hnot. rewrite Hnot. cbn [negb].
  eexists. split; [reflexivity|]. split; [reflexivity|]. split.
  - apply contains_mid.
  - apply forallb_forall. intros h Hin.
    apply contains_app_r, contains_app_r, contains_app_r.
    now apply repr_list_contains.
Qed.

Lemma pick_feature_columns_missing_label_witness :
  exists msg,
    pick_feature_columns xy_rows (lit "missing_col") [] =
      Raise (ValueError msg) /\
    msg = lit "label column '" ++ lit "missing_col" ++
          lit "' not in CSV headers: " ++
          Py.repr_list (keys (hd [] xy_rows)) /\
    Py.contains (lit "missing_col") msg = true /\
    forallb (fun h => Py.contains (Py.repr h) msg) (keys (hd [] xy_rows)) =
      true.
Proof.
  apply (pick_feature_columns_missing_label (hd [] xy_rows) (tl xy_rows)
           (lit "missing_col") []).
  vm_compute. intros [X|[X|[]]]; discriminate X.
Defined.

(** The message for the label column missing_col and the headers x, y. *)
Lemma pick_feature_columns_missing_col_message :
  pick_feature_columns xy_rows (lit "missing_col") [] =
  Raise (ValueError
           (lit "label column 'missing_col' not in CSV headers: ['x', 'y']")).
Proof. evaluated. Qed.

(** ** The dataset *)

Lemma answer_of_empty (label_column : str) (row : Row) :
  is_empty (answer_of label_column row) = negb (has_label label_column row).
Proof.
  unfold answer_of, has_label.
  destruct (get row label_column) as [v|]; [|reflexivity].
  destruct v as [|c v]; [reflexivity|]. cbn [is_empty].
  now rewrite negb_involutive.
Qed.

(** The loop of [to_dataset] appends the examples of the usable rows. *)
Lemma to_dataset_loop (label_column : str) (feature_cols : list str)
    (rows : list Row) (dataset : list Example) :
  fold_left (to_dataset_step label_column feature_cols) rows dataset =
  dataset ++
  map (example_of label_column feature_cols)
    (filter (has_label label_column) rows).
Proof.
  revert dataset; induction rows as [|row rows IH]; intros dataset; simpl.
  - now rewrite app_nil_r.
  - rewrite IH. unfold to_dataset_step.
    rewrite answer_of_empty.
    destruct (has_label label_column row); simpl; [|reflexivity].
    now rewrite <- app_assoc.
Qed.

Lemma to_dataset_value (rows : list Row) (label_column : str)
    (feature_cols : list str) :
  to_dataset rows label_column feature_cols =
  match filter (has_label label_column) rows with
  | [] => Raise (ValueError (lit "No usable rows with non-empty labels"))
  | kept =>
      Ok (map (example_of label_column feature_cols) kept)
  end.
Proof.
  unfold to_dataset. rewrite to_dataset_loop. simpl.
  now destruct (filter (has_label label_column) rows).
Qed.

(** C5.  [to_dataset] returns one example for each row whose label is not
    empty after trimming, in the order of the rows, the answer being the
    trimmed label; when there is no such row it raises the ValueError
    "No usable rows with non-empty labels". *)
Theorem to_dataset_length_order (rows : list Row) (label_column : str)
    (feature_cols : list str) :
  let kept := filter (has_label label_column) rows in
  match to_dataset rows label_column feature_cols with
  | Ok dataset =>
      List.length dataset = List.length kept /\
      is_empty kept = false /\
      dataset = map (example_of label_column feature_cols) kept /\
      map answer dataset = map (answer_of label_column) kept
  | Raise e =>
      e = ValueError (lit "No usable rows with non-empty labels") /\
      List.length kept = 0
  end.
Proof.
  intros kept. rewrite to_dataset_value. fold kept.
  destruct kept as [|row kept']; [now split|].
  repeat split.
  - now rewrite length_map.
  - rewrite map_map. reflexivity.
Qed.

(** The scenario of three rows with the labels A, empty and B. *)
Lemma to_dataset_category_rows :
  option_map (map answer)
    (match to_dataset category_rows (lit "category") [lit "text"] with
     | Ok dataset => Some dataset
     | Raise _ => None
     end) = Some [lit "A"; lit "B"].
Proof. evaluated. Qed.

Lemma input_text_built (feature_cols : list str) (row : Row) :
  built_from feature_cols row (input_text_of feature_cols row).
Proof.
  unfold built_from, input_text_of. eexists. split; [reflexivity|].
  induction feature_cols as [|k ks IH]; simpl; constructor; [|exact IH].
  destruct (get row k); reflexivity.
Qed.

(** C9.  When some row has a usable label, [to_dataset] returns, and the
    input of the example of each kept row is made of one line per feature
    column, in the order given: the column, a colon and a space, and the
    trimmed cell, or nothing after the space when the row has no such
    column; the lines are joined by newlines. *)
Theorem to_dataset_input (rows : list Row) (label_column : str)
    (feature_cols : list str) :
  is_empty (filter (has_label label_column) rows) = false ->
  exists dataset,
    to_dataset rows label_column feature_cols = Ok dataset /\
    Forall2 (fun row ex => built_from feature_cols row (input ex))
      (filter (has_label label_column) rows) dataset.
Proof.
  intros H. rewrite to_dataset_value.
  destruct (filter (has_label label_column) rows) as [|row kept];
    [discriminate|].
  eexists. split; [reflexivity|].
  generalize (row :: kept). intros l.
  induction l as [|r l IH]; simpl; constructor; [|exact IH].
  apply input_text_built.
Qed.

Lemma to_dataset_input_witness :
  exists dataset,
    to_dataset category_rows (lit "category") [lit "text"; lit "source"] =
      Ok dataset /\
    Forall2
      (fun row ex => built_from [lit "text"; lit "source"] row (input ex))
      (filter (has_label (lit "category")) category_rows) dataset.
Proof.
  apply (to_dataset_input category_rows (lit "category")
           [lit "text"; lit "source"]).
  reflexivity.
Defined.

(** * Further properties *)

(** ** The extractor and the seed prompt *)


Lemma extract_prompt_from_service_raises (fs : Path -> option str)
    (path : Path) :
  exists e, extract_prompt_from_service fs path = Raise e.
Proof.
  unfold extract_prompt_from_service, read_text.
  destruct (fs path) as [text|]; cbn [bind]; [|eauto].
  destruct (extract_prompt_never_returns path text) as [H|H]; eauto.
Qed.

(** Without a seed-prompt file, [build_seed_prompt] raises on every file
    system: the prompt would come from the extractor. *)
Theorem build_seed_prompt_needs_seed_file (fs : Path -> option str)
    (args : Namespace) :
  seed_prompt_file args = [] ->
  exists e, build_seed_prompt fs args = Raise e.
Proof.
  intros H. unfold build_seed_prompt, load_template. rewrite H.
  cbn [is_empty negb].
  destruct (extract_prompt_from_service_raises fs (service_file args))
    as [e ->].
  now exists e.
Qed.

Lemma build_seed_prompt_needs_seed_file_witness :
  exists e,
    build_seed_prompt (one_file service_path service_text) service_args =
    Raise e.
Proof.
  apply (build_seed_prompt_needs_seed_file
           (one_file service_path service_text) service_args).
  reflexivity.
Defined.

Lemma seed_suffix_free (p v : str) :
  forallb (fun q => clash q seed_suffix) (tails p) = true ->
  Py.contains p seed_suffix = false ->
  Py.contains p v = false ->
  Py.contains p (v ++ seed_suffix) = false.
Proof.
  intros Hc Hs Hv. apply contains_app_tail; auto.
  intros q Hq. exact (proj1 (forallb_forall _ _) Hc q Hq).
Qed.

(** For any two values that cannot overlap an occurrence of a token, the
    final text of the seed prompt holds neither [{business_type}] nor
    [{aggressiveness_level}], whatever the template, and ends with the
    suffix. *)
Theorem build_seed_prompt_no_tokens (fs : Path -> option str)
    (args : Namespace) (template : str) :
  load_template fs args = Ok template ->
  apart tok_business_type (business_type args) = true ->
  apart tok_business_type (aggressiveness_level args) = true ->
  apart tok_aggressiveness_level (aggressiveness_level args) = true ->
  exists final,
    build_seed_prompt fs args = Ok [(lit "system_prompt", final)] /\
    Py.contains tok_business_type final = false /\
    Py.contains tok_aggressiveness_level final = false /\
    Py.endswith final seed_suffix = true.
Proof.
  intros Hload Hbb Hba Haa.
  unfold build_seed_prompt. rewrite Hload. cbn [bind].
  eexists. split; [reflexivity|].
  unfold tok_business_type, tok_aggressiveness_level in *.
  split; [|split].
  - apply seed_suffix_free; [evaluated|evaluated|].
    apply replace_absent; [nonempty|nonempty|exact Hba|right].
    apply replace_absent; [nonempty|nonempty|exact Hbb|now left].
  - apply seed_suffix_free; [evaluated|evaluated|].
    apply replace_absent; [nonempty|nonempty|exact Haa|now left].
  - apply endswith_app.
Qed.

Lemma build_seed_prompt_no_tokens_witness :
  exists final,
    build_seed_prompt (one_file seed_path seed_template) default_seed_args =
      Ok [(lit "system_prompt", final)] /\
    Py.contains tok_business_type final = false /\
    Py.contains tok_aggressiveness_level final = false /\
    Py.endswith final seed_suffix = true.
Proof.
  apply (build_seed_prompt_no_tokens (one_file seed_path seed_template)
           default_seed_args seed_template); reflexivity.
Defined.

(** A template that holds neither token comes back as it is, followed by
    the suffix, whatever the two values. *)
Theorem build_seed_prompt_plain_template (fs : Path -> option str)
    (args : Namespace) (template : str) :
  load_template fs args = Ok template ->
  Py.contains tok_business_type template = false ->
  Py.contains tok_aggressiveness_level template = false ->
  build_seed_prompt fs args =
  Ok [(lit "system_prompt", template ++ seed_suffix)].
Proof.
  intros Hload Hb Ha. unfold build_seed_prompt. rewrite Hload. cbn [bind].
  unfold tok_business_type, tok_aggressiveness_level in *.
  rewrite (replace_unchanged (lit "{business_type}")) by (nonempty || exact Hb).
  rewrite (replace_unchanged (lit "{aggressiveness_level}"))
    by (nonempty || exact Ha).
  reflexivity.
Qed.

Lemma build_seed_prompt_plain_template_witness :
  build_seed_prompt (one_file seed_path (lit "Classify the text."))
    seed_args =
  Ok [(lit "system_prompt", lit "Classify the text." ++ seed_suffix)].
Proof.
  apply (build_seed_prompt_plain_template
           (one_file seed_path (lit "Classify the text.")) seed_args
           (lit "Classify the text.")); reflexivity.
Defined.

(** ** The requested feature columns *)

Lemma get_of_key (row : Row) (k : str) :
  In k (keys row) -> exists v, get row k = Some v.
Proof.
  induction row as [|[k' v'] row IH]; simpl; [tauto|].
  intros [E|Hin].
  - subst k'. rewrite eqs_refl. eauto.
  - destruct (eqs k k'); eauto.
Qed.

Lemma filter_nil_all {A} (f : A -> bool) (l : list A) :
  filter f l = [] -> forall x, In x l -> f x = false.
Proof.
  intros H x Hin. destruct (f x) eqn:E; [|reflexivity].
  assert (Hx : In x (filter f l)) by (apply filter_In; auto).
  rewrite H in Hx. destruct Hx.
Qed.

Lemma is_empty_true {A} (l : list A) : is_empty l = true <-> l = [].
Proof. destruct l; simpl; split; congruence. Qed.

(** Every column that [pick_feature_columns] returns is a header of the
    first row, so the first row has a cell for it. *)
Theorem pick_feature_columns_headers (row0 : Row) (rest : list Row)
    (label_column requested : str) (cols : list str) :
  pick_feature_columns (row0 :: rest) label_column requested = Ok cols ->
  Forall (fun k => In k (keys row0) /\ exists v, get row0 k = Some v) cols.
Proof.
  unfold pick_feature_columns. intros H. apply Forall_forall. intros k Hk.
  assert (Hin : In k (keys row0)); [|split; [exact Hin|now apply get_of_key]].
  destruct (mem_str label_column (keys row0)); [|discriminate H].
  cbn [negb] in H.
  destruct (is_empty (Py.strip requested)); cbn [negb] in H.
  - injection H as <-. apply filter_In in Hk. tauto.
  - match type of H with
    | (if negb (is_empty ?m) then _ else _) = _ =>
        destruct m as [|x m'] eqn:Em; [|discriminate H]
    end.
    cbn [negb is_empty] in H. injection H as <-.
    pose proof (filter_nil_all _ _ Em k Hk) as Hf.
    apply negb_false_iff in Hf. now apply mem_str_In.
Qed.

Lemma pick_feature_columns_headers_witness :
  Forall (fun k => In k (keys (hd [] category_rows)) /\
                   exists v, get (hd [] category_rows) k = Some v)
    [lit "text"].
Proof.
  apply (pick_feature_columns_headers (hd [] category_rows)
           (tl category_rows) (lit "category") (lit " text ,") [lit "text"]).
  reflexivity.
Defined.

Lemma split_plain (sep : ascii) (p : str) :
  forallb (fun x => negb (Ascii.eqb x sep)) p = true -> Py.split sep p = [p].
Proof.
  induction p as [|c p IH]; simpl; [reflexivity|].
  intros H. apply andb_true_iff in H as [Hc Hp].
  apply negb_true_iff in Hc. now rewrite Hc, IH.
Qed.

Lemma split_app (sep : ascii) (p rest : str) :
  forallb (fun x => negb (Ascii.eqb x sep)) p = true ->
  Py.split sep (p ++ sep :: rest) = p :: Py.split sep rest.
Proof.
  induction p as [|c p IH]; simpl.
  - now rewrite Ascii.eqb_refl.
  - intros H. apply andb_true_iff in H as [Hc Hp].
    apply negb_true_iff in Hc. now rewrite Hc, IH.
Qed.

(** Splitting undoes joining, for parts that do not hold the separator. *)
Lemma split_join (sep : ascii) (parts : list str) :
  parts <> [] ->
  Forall (fun p => forallb (fun x => negb (Ascii.eqb x sep)) p = true) parts ->
  Py.split sep (Py.join [sep] parts) = parts.
Proof.
  induction parts as [|p parts IH]; [congruence|].
  intros _ Hall. inversion Hall as [|p' parts' Hp Hparts]; subst.
  cbn [Py.join]. destruct parts as [|q parts].
  - now apply split_plain.
  - simpl app. rewrite split_app by exact Hp. f_equal.
    apply IH; [discriminate|exact Hparts].
Qed.

Lemma strip_by_nonblank (drop : ascii -> bool) (s : str) (c : ascii) :
  In c s -> drop c = false -> Py.strip_by drop s <> [].
Proof.
  intros Hin Hc Hs.
  destruct (strip_by_trimmed drop s) as (l & r & E & Hl & Hr & _).
  rewrite Hs in E. simpl in E. rewrite E in Hin.
  apply in_app_or in Hin as [Hin|Hin].
  - pose proof (proj1 (forallb_forall _ _) Hl c Hin). congruence.
  - pose proof (proj1 (forallb_forall _ _) Hr c Hin). congruence.
Qed.

Lemma requestable_facts (c : str) :
  requestable c = true ->
  c <> [] /\ Py.strip c = c /\
  forallb (fun x => negb (Ascii.eqb x ","%char)) c = true.
Proof.
  unfold requestable. intros H.
  apply andb_true_iff in H as [H H3]. apply andb_true_iff in H as [H1 H2].
  apply eqs_eq in H2. repeat split; auto.
  intros ->. discriminate H1.
Qed.

Lemma join_head (sep c : str) (cols : list str) :
  exists tl, Py.join sep (c :: cols) = c ++ tl.
Proof.
  cbn [Py.join]. destruct cols; [exists []; now rewrite app_nil_r | eauto].
Qed.

(** A request that spells header names, joined by commas, returns these
    names as they are, in the order and with the repetitions of the
    request; the label column is not taken out of a request. *)
Theorem pick_feature_columns_request (row0 : Row) (rest : list Row)
    (label_column : str) (cols : list str) :
  In label_column (keys row0) ->
  cols <> [] ->
  Forall (fun c => requestable c = true /\ In c (keys row0)) cols ->
  pick_feature_columns (row0 :: rest) label_column
    (Py.join [","%char] cols) = Ok cols.
Proof.
  intros Hlabel Hne Hall. unfold pick_feature_columns.
  apply mem_str_In in Hlabel. rewrite Hlabel. cbn [negb].
  assert (Hsplit : Py.split ","%char (Py.join [","%char] cols) = cols).
  { apply split_join; [exact Hne|].
    eapply Forall_impl; [|exact Hall]. intros c [Hc _].
    now apply requestable_facts in Hc. }
  assert (Hnonblank : is_empty (Py.strip (Py.join [","%char] cols)) = false).
  { destruct cols as [|c cols']; [congruence|].
    inversion Hall as [|c' l' [Hc _] _]; subst.
    apply requestable_facts in Hc as (Hc0 & Hstrip & _).
    destruct (join_head [","%char] c cols') as [tl ->].
    destruct c as [|x c]; [congruence|].
    destruct (is_empty (Py.strip ((x :: c) ++ tl))) eqn:E; [|reflexivity].
    apply is_empty_true in E. exfalso.
    apply (strip_by_nonblank Py.isspace ((x :: c) ++ tl) x);
      [now left| |exact E].
    destruct (strip_by_trimmed Py.isspace (x :: c)) as (l & r & _ & _ & _ & Hh & _).
    unfold Py.strip in Hstrip. rewrite Hstrip in Hh. exact Hh. }
  rewrite Hnonblank, Hsplit. cbn [negb].
  assert (Hfilter : filter (fun c => negb (is_empty (Py.strip c))) cols = cols).
  { clear Hsplit Hnonblank Hne. induction Hall as [|c l [Hc _] _ IH];
      [reflexivity|].
    simpl. apply requestable_facts in Hc as (Hc0 & Hstrip & _).
    rewrite Hstrip. destruct c; [congruence|]. simpl. now rewrite IH. }
  assert (Hmap : map Py.strip cols = cols).
  { clear Hsplit Hnonblank Hne Hfilter.
    induction Hall as [|c l [Hc _] _ IH]; [reflexivity|].
    simpl. apply requestable_facts in Hc as (_ & Hstrip & _).
    now rewrite Hstrip, IH. }
  rewrite Hfilter, Hmap.
  assert (Hmissing : filter (fun c => negb (mem_str c (keys row0))) cols = []).
  { clear Hsplit Hnonblank Hne Hfilter Hmap.
    induction Hall as [|c l [_ Hin] _ IH]; [reflexivity|].
    simpl. apply mem_str_In in Hin. now rewrite Hin. }
  now rewrite Hmissing.
Qed.

Lemma pick_feature_columns_request_witness :
  pick_feature_columns category_rows (lit "category")
    (Py.join [","%char] [lit "category"; lit "text"; lit "text"]) =
  Ok [lit "category"; lit "text"; lit "text"].
Proof.
  apply (pick_feature_columns_request (hd [] category_rows)
           (tl category_rows) (lit "category")
           [lit "category"; lit "text"; lit "text"]).
  - vm_compute. right. left. reflexivity.
  - discriminate.
  - repeat (apply Forall_cons;
            [split; [reflexivity
                    | vm_compute;
                      first [left; reflexivity | right; left; reflexivity]]|]).
    apply Forall_nil.
Defined.

Lemma split_chars (sep : ascii) (s tok : str) :
  In tok (Py.split sep s) -> forall c, In c tok -> In c s.
Proof.
  revert tok; induction s as [|c0 s IH]; intros tok Hin c Hc; simpl in Hin.
  - destruct Hin as [<-|[]]. destruct Hc.
  - destruct (Ascii.eqb c0 sep).
    + destruct Hin as [<-|Hin]; [destruct Hc|]. right. eapply IH; eauto.
    + destruct (Py.split sep s) as [|p ps] eqn:E.
      * destruct Hin as [<-|[]]. destruct Hc as [->|[]]. now left.
      * destruct Hin as [<-|Hin].
        -- destruct Hc as [->|Hc]; [now left|].
           right. apply (IH p); [now left|exact Hc].
        -- right. apply (IH tok); [now right|exact Hc].
Qed.

Lemma strip_by_kept_char (drop : ascii -> bool) (s : str) :
  Py.strip_by drop s <> [] -> exists c, In c s /\ drop c = false.
Proof.
  intros H. destruct (strip_by_trimmed drop s) as (l & r & E & _ & _ & Hh & _).
  destruct (Py.strip_by drop s) as [|c core]; [congruence|].
  exists c. split; [|exact Hh].
  rewrite E. apply in_or_app. right. now left.
Qed.

(** A request that names, between its commas, something that is not a
    header raises the ValueError "missing feature columns", whose list
    holds that name and holds no header. *)
Theorem pick_feature_columns_missing_request (row0 : Row) (rest : list Row)
    (label_column requested tok : str) :
  In label_column (keys row0) ->
  In tok (Py.split ","%char requested) ->
  Py.strip tok <> [] ->
  ~ In (Py.strip tok) (keys row0) ->
  exists missing,
    pick_feature_columns (row0 :: rest) label_column requested =
      Raise (ValueError (lit "missing feature columns: " ++
                         Py.repr_list missing)) /\
    In (Py.strip tok) missing /\
    Forall (fun c => ~ In c (keys row0)) missing.
Proof.
  intros Hlabel Htok Hne Hnot. unfold pick_feature_columns.
  apply mem_str_In in Hlabel. rewrite Hlabel. cbn [negb].
  assert (Hreq : is_empty (Py.strip requested) = false).
  { destruct (strip_by_kept_char _ _ Hne) as (c & Hc & Hsp).
    destruct (is_empty (Py.strip requested)) eqn:E; [|reflexivity].
    apply is_empty_true in E. exfalso.
    apply (strip_by_nonblank Py.isspace requested c); auto.
    eapply split_chars; eauto. }
  rewrite Hreq. cbn [negb].
  set (cols := map Py.strip
                 (filter (fun c => negb (is_empty (Py.strip c)))
                    (Py.split ","%char requested))).
  set (missing := filter (fun c => negb (mem_str c (keys row0))) cols).
  assert (Hin : In (Py.strip tok) missing).
  { apply filter_In. split.
    - apply in_map, filter_In. split; [exact Htok|].
      destruct (Py.strip tok); [congruence|reflexivity].
    - apply negb_true_iff. now apply mem_str_not_In. }
  destruct missing as [|m ms] eqn:Em; [destruct Hin|].
  cbn [negb is_empty]. exists (m :: ms). split; [reflexivity|].
  split; [exact Hin|].
  rewrite <- Em. apply Forall_forall. intros c Hc.
  apply filter_In in Hc as [_ Hc]. apply negb_true_iff in Hc.
  now apply mem_str_not_In.
Qed.

Lemma pick_feature_columns_missing_request_witness :
  exists missing,
    pick_feature_columns category_rows (lit "category") (lit "text, source") =
      Raise (ValueError (lit "missing feature columns: " ++
                         Py.repr_list missing)) /\
    In (Py.strip (lit " source")) missing /\
    Forall (fun c => ~ In c (keys (hd [] category_rows))) missing.
Proof.
  apply (pick_feature_columns_missing_request (hd [] category_rows)
           (tl category_rows) (lit "category") (lit "text, source")
           (lit " source")).
  - vm_compute. right. left. reflexivity.
  - vm_compute. right. left. reflexivity.
  - vm_compute. discriminate.
  - vm_compute. intros [X|[X|[]]]; discriminate X.
Defined.

(** ** The examples of a dataset *)

Lemma strip_by_idempotent (drop : ascii -> bool) (s : str) :
  Py.strip_by drop (Py.strip_by drop s) = Py.strip_by drop s.
Proof.
  symmetry. apply trimmed_unique.
  destruct (strip_by_trimmed drop s) as (l & r & _ & _ & _ & Hh & Hl).
  exists [], []. rewrite app_nil_r. now repeat split.
Qed.

(** Every example that [to_dataset] returns has an answer that is not
    empty and has no whitespace at either end, and an empty additional
    context. *)
Theorem to_dataset_answers (rows : list Row) (label_column : str)
    (feature_cols : list str) (dataset : list Example) :
  to_dataset rows label_column feature_cols = Ok dataset ->
  Forall (fun ex => answer ex <> [] /\
                    Py.strip (answer ex) = answer ex /\
                    additional_context ex = []) dataset.
Proof.
  rewrite to_dataset_value. intros H.
  assert (Hds : dataset =
                map (example_of label_column feature_cols)
                  (filter (has_label label_column) rows)).
  { destruct (filter (has_label label_column) rows); [discriminate H|].
    now injection H. }
  subst dataset. apply Forall_forall. intros ex Hex.
  apply in_map_iff in Hex as (row & <- & Hrow).
  apply filter_In in Hrow as [_ Hrow]. cbn [example_of answer additional_context].
  repeat split.
  - intros E. pose proof (answer_of_empty label_column row) as He.
    rewrite E, Hrow in He. discriminate He.
  - unfold answer_of, Py.strip. apply strip_by_idempotent.
Qed.

Lemma to_dataset_answers_witness :
  Forall (fun ex => answer ex <> [] /\
                    Py.strip (answer ex) = answer ex /\
                    additional_context ex = [])
    (map (example_of (lit "category") [lit "text"])
       (filter (has_label (lit "category")) category_rows)).
Proof.
  apply (to_dataset_answers category_rows (lit "category") [lit "text"]).
  reflexivity.
Defined.

(** The dataset of two lists of rows, one after the other, is the dataset
    of the first followed by the dataset of the second; a list without a
    usable row adds nothing. *)
Theorem to_dataset_app (rows1 rows2 : list Row) (label_column : str)
    (feature_cols : list str) :
  to_dataset (rows1 ++ rows2) label_column feature_cols =
  match to_dataset rows1 label_column feature_cols,
        to_dataset rows2 label_column feature_cols with
  | Ok d1, Ok d2 => Ok (d1 ++ d2)
  | Ok d1, Raise _ => Ok d1
  | Raise _, r2 => r2
  end.
Proof.
  rewrite !to_dataset_value, filter_app.
  destruct (filter (has_label label_column) rows1) as [|r1 k1];
    destruct (filter (has_label label_column) rows2) as [|r2 k2];
    simpl; try reflexivity.
  - now rewrite app_nil_r.
  - now rewrite map_app.
Qed.

(** ** The evaluator, letter case and labels *)

Lemma lower_char_facts (c : ascii) :
  Py.isspace (Py.lower_char c) = Py.isspace c /\
  Py.is_linebreak (Py.lower_char c) = Py.is_linebreak c /\
  is_dquote (Py.lower_char c) = is_dquote c /\
  is_squote (Py.lower_char c) = is_squote c /\
  Py.lower_char (Py.lower_char c) = Py.lower_char c.
Proof.
  destruct c as [[] [] [] [] [] [] [] []]; vm_compute; repeat split.
Qed.

Lemma lower_idempotent (s : str) : Py.lower (Py.lower s) = Py.lower s.
Proof.
  unfold Py.lower. rewrite map_map. apply map_ext. intros c.
  apply lower_char_facts.
Qed.

Section MapAndTrim.

Variable f : ascii -> ascii.
Variable drop : ascii -> bool.
Hypothesis drop_f : forall c, drop (f c) = drop c.

Lemma lstrip_by_map (s : str) :
  Py.lstrip_by drop (map f s) = map f (Py.lstrip_by drop s).
Proof.
  induction s as [|c s IH]; simpl; [reflexivity|].
  rewrite drop_f. destruct (drop c); [exact IH|reflexivity].
Qed.

Lemma strip_by_map (s : str) :
  Py.strip_by drop (map f s) = map f (Py.strip_by drop s).
Proof.
  unfold Py.strip_by, Py.rstrip_by.
  now rewrite lstrip_by_map, <- map_rev, lstrip_by_map, map_rev.
Qed.

Lemma forallb_map_same (s : str) : forallb drop (map f s) = forallb drop s.
Proof.
  induction s as [|c s IH]; simpl; [reflexivity|]. now rewrite drop_f, IH.
Qed.

Lemma existsb_map_same (s : str) : existsb drop (map f s) = existsb drop s.
Proof.
  induction s as [|c s IH]; simpl; [reflexivity|]. now rewrite drop_f, IH.
Qed.

End MapAndTrim.

Lemma first_line_map (f : ascii -> ascii) (s : str) :
  (forall c, Py.is_linebreak (f c) = Py.is_linebreak c) ->
  first_line (map f s) = map f (first_line s).
Proof.
  intros Hf. induction s as [|c s IH]; simpl; [reflexivity|].
  rewrite Hf. destruct (Py.is_linebreak c); [reflexivity|]. now rewrite IH.
Qed.

Lemma strip_lower (s : str) : Py.strip (Py.lower s) = Py.lower (Py.strip s).
Proof. apply strip_by_map. intros c. apply lower_char_facts. Qed.

(** Line 119, by cases on the trimmed response. *)
Lemma predicted_of_cases (response : str) :
  predicted_of response =
  if is_empty (Py.strip response)
  then Raise (IndexError (lit "list index out of range"))
  else Ok (Py.lower
             (Py.strip_by is_squote
                (Py.strip_by is_dquote
                   (Py.strip (first_line (Py.strip response)))))).
Proof.
  destruct (Py.strip response) as [|c t] eqn:E.
  - unfold predicted_of. now rewrite E.
  - rewrite predicted_of_value by congruence.
    now rewrite strip_chars_squote, strip_chars_dquote, E.
Qed.

Lemma predicted_of_lower (response : str) :
  predicted_of (Py.lower response) = predicted_of response.
Proof.
  rewrite !predicted_of_cases, strip_lower.
  destruct (Py.strip response) as [|c t] eqn:E; [reflexivity|].
  cbn [Py.lower map is_empty]. f_equal.
  change (Py.lower_char c :: map Py.lower_char t) with (Py.lower (c :: t)).
  unfold Py.lower at 2.
  rewrite first_line_map by (intros x; apply lower_char_facts).
  fold (Py.lower (first_line (c :: t))). rewrite strip_lower.
  unfold Py.lower at 2.
  rewrite (strip_by_map Py.lower_char is_dquote)
    by (intros x; apply lower_char_facts).
  rewrite (strip_by_map Py.lower_char is_squote)
    by (intros x; apply lower_char_facts).
  apply lower_idempotent.
Qed.

Lemma expected_of_lower (data : Example) :
  expected_of data = Py.strip (Py.lower (answer data)).
Proof. unfold expected_of. now rewrite strip_lower. Qed.

Lemma score_of_evaluator (data : Example) (response : str) :
  score_of (exact_label_evaluator data response) =
  match predicted_of response with
  | Ok predicted =>
      Some (if eqs predicted (expected_of data)
            then QArith_base.Qmake 1 1 else QArith_base.Qmake 0 1)
  | Raise _ => None
  end.
Proof.
  unfold exact_label_evaluator. now destruct (predicted_of response).
Qed.

(** The evaluator does not see letter case: two responses that differ in
    case only, against two labels that differ in case only, get the same
    score, or both raise. *)
Theorem exact_label_evaluator_ignores_case (data1 data2 : Example)
    (response1 response2 : str) :
  Py.lower (answer data1) = Py.lower (answer data2) ->
  Py.lower response1 = Py.lower response2 ->
  score_of (exact_label_evaluator data1 response1) =
  score_of (exact_label_evaluator data2 response2).
Proof.
  intros Ha Hr. rewrite !score_of_evaluator, !expected_of_lower, Ha.
  now rewrite <- (predicted_of_lower response1), Hr, predicted_of_lower.
Qed.

Lemma exact_label_evaluator_ignores_case_witness :
  score_of (exact_label_evaluator spam_example (lit "sPaM")) =
  score_of (exact_label_evaluator
              {| input := []; additional_context := [];
                 answer := lit "SPAM" |} (lit "Spam")).
Proof.
  apply exact_label_evaluator_ignores_case; reflexivity.
Defined.

Lemma first_line_unbroken (s : str) :
  forallb (fun c => negb (Py.is_linebreak c)) (first_line s) = true.
Proof.
  induction s as [|c s IH]; simpl; [reflexivity|].
  destruct (Py.is_linebreak c) eqn:E; [reflexivity|]. simpl. now rewrite E.
Qed.

Lemma lstrip_by_forallb (P drop : ascii -> bool) (s : str) :
  forallb P s = true -> forallb P (Py.lstrip_by drop s) = true.
Proof.
  induction s as [|c s IH]; simpl; [reflexivity|].
  intros H. destruct (drop c); [|exact H].
  apply andb_true_iff in H as [_ H]. now apply IH.
Qed.

Lemma strip_by_forallb (P drop : ascii -> bool) (s : str) :
  forallb P s = true -> forallb P (Py.strip_by drop s) = true.
Proof.
  intros H. unfold Py.strip_by, Py.rstrip_by.
  rewrite forallb_rev. apply lstrip_by_forallb.
  rewrite forallb_rev. now apply lstrip_by_forallb.
Qed.

Lemma forallb_not_existsb (P : ascii -> bool) (s : str) :
  forallb (fun c => negb (P c)) s = true -> existsb P s = false.
Proof.
  induction s as [|c s IH]; simpl; [reflexivity|].
  intros H. apply andb_true_iff in H as [Hc Hs].
  apply negb_true_iff in Hc. now rewrite Hc, IH.
Qed.

(** A label that holds a line boundary after trimming is never matched:
    the evaluator gives every response that is not blank the score 0. *)
Theorem exact_label_evaluator_multiline_label (data : Example)
    (response : str) :
  existsb Py.is_linebreak (Py.strip (answer data)) = true ->
  score_of (exact_label_evaluator data response) =
  if is_empty (Py.strip response) then None
  else Some (QArith_base.Qmake 0 1).
Proof.
  intros Hlabel. rewrite score_of_evaluator, predicted_of_cases.
  destruct (is_empty (Py.strip response)); [reflexivity|].
  match goal with |- Some (if eqs ?p ?e then _ else _) = _ =>
    destruct (eqs p e) eqn:E; [|reflexivity] end.
  apply eqs_eq in E. exfalso.
  assert (Hp : existsb Py.is_linebreak (expected_of data) = true).
  { unfold expected_of, Py.lower.
    rewrite existsb_map_same by (intros c; apply lower_char_facts).
    exact Hlabel. }
  rewrite <- E in Hp.
  rewrite forallb_not_existsb in Hp; [discriminate Hp|].
  unfold Py.lower.
  rewrite (forallb_map_same Py.lower_char
             (fun c => negb (Py.is_linebreak c)))
    by (intros c; f_equal; apply lower_char_facts).
  apply strip_by_forallb, strip_by_forallb, strip_by_forallb.
  apply first_line_unbroken.
Qed.

Lemma exact_label_evaluator_multiline_label_witness :
  score_of (exact_label_evaluator multiline_example
              (answer multiline_example)) =
  if is_empty (Py.strip (answer multiline_example)) then None
  else Some (QArith_base.Qmake 0 1).
Proof.
  apply (exact_label_evaluator_multiline_label multiline_example
           (answer multiline_example)).
  reflexivity.
Defined.

Lemma exact_label_evaluator_score_witness :
  exists predicted res,
    predicted_of ([DQ] ++ lit "Spam" ++ [DQ]) = Ok predicted /\
    exact_label_evaluator spam_example ([DQ] ++ lit "Spam" ++ [DQ]) =
      Ok res /\
    objective_scores res = None /\
    (predicted = expected_of spam_example ->
     score res = QArith_base.Qmake 1 1) /\
    (predicted <> expected_of spam_example ->
     score res = QArith_base.Qmake 0 1).
Proof.
  apply (exact_label_evaluator_score spam_example
           ([DQ] ++ lit "Spam" ++ [DQ])).
  intro X. vm_compute in X. discriminate X.
Defined.

Lemma is_quote_lower (c : ascii) : is_quote (Py.lower_char c) = is_quote c.
Proof.
  unfold is_quote.
  destruct (lower_char_facts c) as (_ & _ & -> & -> & _). reflexivity.
Qed.

Lemma plain_label_lower (s : str) : plain_label (Py.lower s) = plain_label s.
Proof.
  unfold plain_label, Py.lower.
  rewrite (forallb_map_same Py.lower_char
             (fun c => negb (Py.is_linebreak c)))
    by (intros c; f_equal; apply lower_char_facts).
  rewrite <- map_rev.
  destruct s as [|c s]; [reflexivity|].
  cbn [map]. rewrite is_quote_lower.
  destruct (rev (c :: s)) as [|d u]; [reflexivity|].
  cbn [map]. now rewrite is_quote_lower.
Qed.

Lemma first_line_whole (s : str) :
  forallb (fun c => negb (Py.is_linebreak c)) s = true -> first_line s = s.
Proof.
  induction s as [|c s IH]; simpl; [reflexivity|].
  intros H. apply andb_true_iff in H as [Hc Hs].
  apply negb_true_iff in Hc. now rewrite Hc, IH.
Qed.

Lemma strip_by_stop (drop : ascii -> bool) (s : str) :
  match s with [] => True | c :: _ => drop c = false end ->
  match rev s with [] => True | c :: _ => drop c = false end ->
  Py.strip_by drop s = s.
Proof.
  intros Hh Hl. unfold Py.strip_by, Py.rstrip_by.
  rewrite (lstrip_by_stop drop s Hh), (lstrip_by_stop drop (rev s) Hl).
  apply rev_involutive.
Qed.

Lemma plain_label_facts (t : str) :
  plain_label t = true ->
  is_empty t = false /\
  first_line t = t /\
  Py.strip_by is_dquote t = t /\
  Py.strip_by is_squote t = t.
Proof.
  unfold plain_label. intros H.
  apply andb_true_iff in H as [H Hlast]. apply andb_true_iff in H as [Hb Hh].
  destruct t as [|c t]; [discriminate Hh|].
  destruct (rev (c :: t)) as [|d u] eqn:Er; [discriminate Hlast|].
  unfold is_quote in Hh, Hlast.
  apply negb_true_iff, orb_false_iff in Hh as [Hh1 Hh2].
  apply negb_true_iff, orb_false_iff in Hlast as [Hl1 Hl2].
  split; [reflexivity|]. split; [now apply first_line_whole|].
  split; apply strip_by_stop; rewrite ?Er; assumption.
Qed.

(** For a label on one line without a quote at either end, a response
    that is the label up to letter case and surrounding whitespace gets the
    score 1. *)
Theorem exact_label_evaluator_plain_label (data : Example) (response : str) :
  plain_label (Py.strip (answer data)) = true ->
  Py.lower (Py.strip response) = expected_of data ->
  score_of (exact_label_evaluator data response) =
  Some (QArith_base.Qmake 1 1).
Proof.
  intros Hplain Heq.
  assert (Ht : plain_label (Py.strip response) = true).
  { rewrite <- plain_label_lower, Heq. unfold expected_of.
    now rewrite plain_label_lower. }
  destruct (plain_label_facts _ Ht) as (Hne & Hline & Hdq & Hsq).
  rewrite score_of_evaluator, predicted_of_cases, Hne, Hline.
  unfold Py.strip at 1. rewrite strip_by_idempotent.
  fold (Py.strip response). rewrite Hdq, Hsq, Heq.
  now rewrite eqs_refl.
Qed.

Lemma exact_label_evaluator_plain_label_witness :
  score_of (exact_label_evaluator spam_example
              (lit "  SPAM " ++ [LF])) =
  Some (QArith_base.Qmake 1 1).
Proof.
  apply (exact_label_evaluator_plain_label spam_example
           (lit "  SPAM " ++ [LF])); reflexivity.
Defined.

(** ** The caller *)

(** Without a seed-prompt file [main] never reaches the optimizer: the
    preparation raises whatever the rows and the file system are. *)
Theorem main_prepare_needs_seed_file (fs : Path -> option str)
    (args : Namespace) (label_column feature_columns : str)
    (train_rows val_rows : list Row) :
  seed_prompt_file args = [] ->
  exists e,
    main_prepare fs args label_column feature_columns train_rows val_rows =
    Raise e.
Proof.
  intros H. unfold main_prepare.
  destruct (pick_feature_columns train_rows label_column feature_columns)
    as [cols|e]; cbn [bind]; [|eauto].
  destruct (to_dataset train_rows label_column cols) as [d1|e];
    cbn [bind]; [|eauto].
  destruct (to_dataset val_rows label_column cols) as [d2|e];
    cbn [bind]; [|eauto].
  destruct (extract_prompt_from_service_raises fs (service_file args))
    as [e He].
  unfold build_seed_prompt, load_template. rewrite H. cbn [is_empty negb].
  rewrite He. cbn [bind]. eauto.
Qed.

Lemma main_prepare_needs_seed_file_witness :
  exists e,
    main_prepare (one_file service_path service_text) service_args
      (lit "category") [] category_rows category_rows =
    Raise e.
Proof.
  apply (main_prepare_needs_seed_file
           (one_file service_path service_text) service_args).
  reflexivity.
Defined.

(** When the preparation succeeds, both datasets are built with the
    feature columns picked from the training rows: each holds the examples
    of its usable rows in order and is not empty, and the seed candidate is
    one prompt under the key system_prompt that ends with the suffix. *)
Theorem main_prepare_success (fs : Path -> option str) (args : Namespace)
    (label_column feature_columns : str) (train_rows val_rows : list Row)
    (inputs : OptimizeInputs) :
  main_prepare fs args label_column feature_columns train_rows val_rows =
    Ok inputs ->
  exists cols final,
    pick_feature_columns train_rows label_column feature_columns = Ok cols /\
    trainset inputs =
      map (example_of label_column cols)
        (filter (has_label label_column) train_rows) /\
    valset inputs =
      map (example_of label_column cols)
        (filter (has_label label_column) val_rows) /\
    is_empty (trainset inputs) = false /\
    is_empty (valset inputs) = false /\
    seed_candidate inputs = [(lit "system_prompt", final)] /\
    Py.endswith final seed_suffix = true.
Proof.
  unfold main_prepare. intros H.
  destruct (pick_feature_columns train_rows label_column feature_columns)
    as [cols|e]; cbn [bind] in H; [|discriminate H].
  rewrite !to_dataset_value in H.
  destruct (filter (has_label label_column) train_rows) as [|r1 k1];
    cbn [bind] in H; [discriminate H|].
  destruct (filter (has_label label_column) val_rows) as [|r2 k2];
    cbn [bind] in H; [discriminate H|].
  unfold build_seed_prompt in H.
  destruct (load_template fs args) as [template|e]; cbn [bind] in H;
    [|discriminate H].
  injection H as <-. cbn [trainset valset seed_candidate].
  eexists. eexists. repeat split. apply endswith_app.
Qed.

Lemma main_prepare_success_witness :
  exists cols final,
    pick_feature_columns category_rows (lit "category") [] = Ok cols /\
    trainset
      {| seed_candidate :=
           [(lit "system_prompt",
             lit "You advise a bakery. Be high." ++ seed_suffix)];
         trainset :=
           map (example_of (lit "category") [lit "text"])
             (filter (has_label (lit "category")) category_rows);
         valset :=
           map (example_of (lit "category") [lit "text"])
             (filter (has_label (lit "category")) (tl category_rows)) |} =
      map (example_of (lit "category") cols)
        (filter (has_label (lit "category")) category_rows) /\
    valset
      {| seed_candidate :=
           [(lit "system_prompt",
             lit "You advise a bakery. Be high." ++ seed_suffix)];
         trainset :=
           map (example_of (lit "category") [lit "text"])
             (filter (has_label (lit "category")) category_rows);
         valset :=
           map (example_of (lit "category") [lit "text"])
             (filter (has_label (lit "category")) (tl category_rows)) |} =
      map (example_of (lit "category") cols)
        (filter (has_label (lit "category")) (tl category_rows)) /\
    is_empty
      (map (example_of (lit "category") [lit "text"])
         (filter (has_label (lit "category")) category_rows)) = false /\
    is_empty
      (map (example_of (lit "category") [lit "text"])
         (filter (has_label (lit "category")) (tl category_rows))) = false /\
    [(lit "system_prompt",
      lit "You advise a bakery. Be high." ++ seed_suffix)] =
      [(lit "system_prompt", final)] /\
    Py.endswith final seed_suffix = true.
Proof.
  apply (main_prepare_success (one_file seed_path seed_template) seed_args
           (lit "category") [] category_rows (tl category_rows)).
  reflexivity.
Defined.
